(** * fetch_top_cryptos: symbol resolution and multi-source acquisition

    A shallow embedding of [src/fetch_top_cryptos.py].  Network collaborators
    (exchange metadata, ranking provider, bulk archive, live query API) are
    oracles: a request always yields a response record carrying a status code
    and an already tabular payload.  Transport failures and malformed
    payloads, which make the HTTP or parsing library raise, are outside the
    model.  Console output is not modelled, except where evaluating a printed
    expression can raise.  The data frame operations the code calls
    ([pd.concat] on either axis, [dropna], [len], [index[0]]) are modelled as
    pandas 2 performs them on frames with a datetime index. *)

From Stdlib Require Import ZArith List Bool Ascii String Lia.
Import ListNotations.

Open Scope string_scope.
Open Scope Z_scope.

Set Implicit Arguments.

(* ================================================================== *)
(** * Part I: definitions *)
(* ================================================================== *)

(** ** Python strings and containers *)

(** [x in xs] for a list or a set of strings. *)
Definition mem (x : string) (xs : list string) : bool :=
  existsb (String.eqb x) xs.

(** Truth value of a [str]: only the empty string is false. *)
Definition truthy (s : string) : bool := negb (s =? "")%string.

(** Truth value of a value that is [None] or a [str]. *)
Definition truthy_opt (o : option string) : bool :=
  match o with
  | None => false
  | Some s => truthy s
  end.

(** [len(xs)] as a Python integer. *)
Definition len {A : Type} (xs : list A) : Z := Z.of_nat (List.length xs).

(** [xs[:n]]: a negative stop counts from the end and is clamped at 0. *)
Definition slice_to {A : Type} (n : Z) (xs : list A) : list A :=
  if 0 <=? n then firstn (Z.to_nat n) xs
  else firstn (Z.to_nat (len xs + n)) xs.

(** [c.upper()] on one character of an ASCII ticker. *)
Definition upper_ascii (c : ascii) : ascii :=
  let n := nat_of_ascii c in
  if (andb (Nat.leb 97 n) (Nat.leb n 122)) then ascii_of_nat (n - 32) else c.

(** [s.upper()]. *)
Fixpoint upper (s : string) : string :=
  match s with
  | EmptyString => EmptyString
  | String c s' => String (upper_ascii c) (upper s')
  end.

(** [s.startswith(p)]. *)
Definition startswith (s p : string) : bool := String.prefix p s.

(** [s.endswith(q)]. *)
Definition endswith (s q : string) : bool :=
  let n := String.length s in
  let m := String.length q in
  andb (Nat.leb m n) (String.eqb (substring (n - m) m s) q).

(** ** Exchange Registry: [get_all_binance_symbols] *)

Record SymbolInfo := {
  info_symbol : string;   (* symbol_info['symbol'] *)
  info_status : string    (* symbol_info['status'] *)
}.

Record ExchangeInfo := {
  exchange_status_code : Z;
  exchange_symbols : list SymbolInfo   (* response.json()['symbols'] *)
}.

Record CmcItem := {
  item_symbol : string    (* item['symbol'] *)
}.

Record CmcResponse := {
  cmc_status_code : Z;
  cmc_data : list CmcItem  (* response.json()['data'] *)
}.

(** What the selector asks of its surroundings. *)
Record Exchange := {
  getenv_api_key : option string;              (* os.getenv('COINMARKETCAP_API_KEY') *)
  exchange_info : ExchangeInfo;                (* GET /api/v3/exchangeInfo *)
  cmc_listings : string -> Z -> CmcResponse    (* GET listings/latest, by key and limit *)
}.

(** [s.add(x)]. The set is kept as the list of its members in the order a
    [for] loop visits them; here that is the order of first insertion.
    Python leaves the order unspecified: every order of a given registry is
    the image of some ordering of the metadata response, and the statements
    below quantify over all responses. *)
Definition set_add (x : string) (s : list string) : list string :=
  if mem x s then s else s ++ [x].

Definition get_all_binance_symbols (ex : Exchange) : list string :=
  let response := exchange_info ex in
  if negb (exchange_status_code response =? 200) then []
  else
    fold_left
      (fun usdt_symbols symbol_info =>
         let symbol := info_symbol symbol_info in
         if andb (endswith symbol "USDT")
                 (String.eqb (info_status symbol_info) "TRADING")
         then set_add symbol usdt_symbols
         else usdt_symbols)
      (exchange_symbols response) [].

(** ** Symbol Resolver: [find_valid_symbol] *)

(** The [variations] list, whose entries are strings or [None]. *)
Definition variations (base_symbol : string) (valid_symbols : list string)
  : list (option string) :=
  [ Some (upper base_symbol ++ "USDT");
    if String.eqb base_symbol "HYPE" then Some ("HYPER" ++ "USDT") else None ]
  ++ map Some
       (filter (fun symbol =>
                  andb (startswith symbol base_symbol) (endswith symbol "USDT"))
               valid_symbols).

(** The loop [for variant in variations]: first entry that is truthy and in
    the registry. *)
Fixpoint first_valid (vs : list (option string)) (valid_symbols : list string)
  : option string :=
  match vs with
  | [] => None
  | variant :: rest =>
      if andb (truthy_opt variant)
              (match variant with
               | Some v => mem v valid_symbols
               | None => false
               end)
      then variant
      else first_valid rest valid_symbols
  end.

Definition find_valid_symbol (base_symbol : string) (valid_symbols : list string)
  : option string :=
  let exact_match := base_symbol ++ "USDT" in
  if mem exact_match valid_symbols then Some exact_match
  else first_valid (variations base_symbol valid_symbols) valid_symbols.

(** ** Ranked Candidate Selector: [get_top10_symbols] *)

Definition stablecoins : list string :=
  ["USDT"; "USDC"; "BUSD"; "TUSD"; "DAI"; "FDUSD"; "USDE"].

Definition excluded : list string := ["WETH"; "WBTC"; "STETH"].

Definition fallback_bases : list string :=
  ["BTC"; "ETH"; "BNB"; "XRP"; "SOL"; "ADA"; "DOGE"; "AVAX";
   "DOT"; "LINK"; "MATIC"; "LTC"; "UNI"; "ATOM"; "XLM";
   "FIL"; "ETC"; "AAVE"; "ALGO"; "VET"; "TRX"; "SUI"].

(** The loop [for item in data] of the primary path. *)
Fixpoint cmc_loop (valid_binance_symbols : list string) (target_count : Z)
    (data : list CmcItem) (valid_symbols : list string) : list string :=
  match data with
  | [] => valid_symbols
  | item :: rest =>
      if len valid_symbols >=? target_count then valid_symbols
      else
        let base_symbol := item_symbol item in
        if orb (mem base_symbol stablecoins) (mem base_symbol excluded)
        then cmc_loop valid_binance_symbols target_count rest valid_symbols
        else
          match find_valid_symbol base_symbol valid_binance_symbols with
          | Some valid_pair =>
              if truthy valid_pair
              then cmc_loop valid_binance_symbols target_count rest
                     (valid_symbols ++ [valid_pair])
              else cmc_loop valid_binance_symbols target_count rest valid_symbols
          | None => cmc_loop valid_binance_symbols target_count rest valid_symbols
          end
  end.

(** The loop [for base in fallback_bases]. *)
Fixpoint fallback_loop (valid_binance_symbols : list string) (target_count : Z)
    (bases : list string) (valid_symbols : list string) : list string :=
  match bases with
  | [] => valid_symbols
  | base :: rest =>
      if len valid_symbols >=? target_count then valid_symbols
      else if negb (len valid_binance_symbols =? 0) then
        match find_valid_symbol base valid_binance_symbols with
        | Some valid_pair =>
            if truthy valid_pair
            then fallback_loop valid_binance_symbols target_count rest
                   (valid_symbols ++ [valid_pair])
            else fallback_loop valid_binance_symbols target_count rest valid_symbols
        | None => fallback_loop valid_binance_symbols target_count rest valid_symbols
        end
      else fallback_loop valid_binance_symbols target_count rest
             (valid_symbols ++ [base ++ "USDT"])
  end.

(** The primary path up to its [return]: [inl] is the returned list, [inr]
    the value of [valid_symbols] with which control reaches the fallback. *)
Definition primary_path (ex : Exchange) (api_key : option string)
    (target_count max_fetch : Z) : list string + list string :=
  let api_key := match api_key with
                 | None => getenv_api_key ex
                 | Some k => Some k
                 end in
  let valid_binance_symbols := get_all_binance_symbols ex in
  let valid_symbols := [] in
  if andb (truthy_opt api_key) (negb (len valid_binance_symbols =? 0)) then
    let response :=
      cmc_listings ex (match api_key with Some k => k | None => "" end)
                   (max_fetch + 15) in
    if cmc_status_code response =? 200 then
      let valid_symbols :=
        cmc_loop valid_binance_symbols target_count (cmc_data response)
                 valid_symbols in
      if len valid_symbols >=? target_count
      then inl (slice_to target_count valid_symbols)
      else inr valid_symbols
    else inr valid_symbols
  else inr valid_symbols.

Definition get_top10_symbols (ex : Exchange) (api_key : option string)
    (target_count max_fetch : Z) : list string :=
  match primary_path ex api_key target_count max_fetch with
  | inl result => result
  | inr valid_symbols =>
      slice_to target_count
        (fallback_loop (get_all_binance_symbols ex) target_count
                       fallback_bases valid_symbols)
  end.

(** The base asset of a pair symbol: the symbol without its quote suffix. *)
Definition base_asset (pair : string) : string :=
  if endswith pair "USDT"
  then substring 0 (String.length pair - 4) pair
  else pair.

(** ** Series Fetcher *)

(** Python exceptions that the aggregator can raise, itself or through the
    data frame library. *)
Inductive exn :=
| ValueError (msg : string)
| IndexError (msg : string)
| InvalidIndexError (msg : string).

Inductive result (A : Type) :=
| Ok (a : A)
| Raise (e : exn).

Arguments Ok {A} a.
Arguments Raise {A} e.

(** ** Index operations of the data frame library

    A time index is the list of its labels, timestamps in milliseconds, in
    row order; it may be unsorted and may repeat a label. *)

Definition memZ (t : Z) (ts : list Z) : bool := existsb (Z.eqb t) ts.

(** [not index.is_unique]. *)
Fixpoint has_duplicates (ts : list Z) : bool :=
  match ts with
  | [] => false
  | t :: rest => orb (memZ t rest) (has_duplicates rest)
  end.

(** [a.equals(b)]: the same labels in the same order. *)
Fixpoint index_equals (a b : list Z) : bool :=
  match a, b with
  | [], [] => true
  | x :: a', y :: b' => andb (x =? y) (index_equals a' b')
  | _, _ => false
  end.

(** The number of rows that carry the label. *)
Fixpoint count_label (t : Z) (ts : list Z) : nat :=
  match ts with
  | [] => 0
  | x :: rest =>
      if x =? t then S (count_label t rest) else count_label t rest
  end.

Fixpoint insert_label (t : Z) (sorted : list Z) : list Z :=
  match sorted with
  | [] => [t]
  | x :: rest =>
      if t <? x then t :: x :: rest
      else if t =? x then x :: rest
      else x :: insert_label t rest
  end.

(** The distinct labels, in increasing order. *)
Definition sort_labels (ts : list Z) : list Z := fold_right insert_label [] ts.

(** The sorted union of two different, non-empty indexes: each label as
    often as the index that repeats it most. *)
Definition union_sorted (a b : list Z) : list Z :=
  flat_map (fun t => repeat t (Nat.max (count_label t a) (count_label t b)))
           (sort_labels (a ++ b)).

(** [a.union(b, sort=None)]: an equal or empty other index leaves [a] as
    it is. *)
Definition index_union (a b : list Z) : list Z :=
  if orb (len b =? 0) (index_equals a b) then a
  else if len a =? 0 then b
  else union_sorted a b.

(** The combined index of several datetime indexes. *)
Definition union_indexes (indexes : list (list Z)) : list Z :=
  match indexes with
  | [] => []
  | first :: others => fold_left index_union others first
  end.

Section Acquisition.

(** The type of a price, a [float] in the source; no arithmetic is done on
    prices.  A close is an [option]: [None] is NaN, which [astype(float)]
    gives for a blank or null cell of the payload. *)
Context {V : Type}.

(** One candle of the 12-column schema shared by both backends. *)
Record Kline := {
  timestamp : Z;            (* milliseconds since the epoch *)
  open : V;
  high : V;
  low : V;
  close : option V;
  volume : V;
  close_time : Z;
  quote_asset_volume : V;
  trades : Z;
  taker_base_vol : V;
  taker_quote_vol : V;
  ignore : V
}.

Record KlineResponse := {
  status_code : Z;
  content : list Kline      (* the payload, as rows *)
}.

(** A one-column data frame: the timestamp index and the column's values,
    row by row. *)
Definition Frame : Type := list (Z * option V).

(** What the fetchers and the aggregator ask of their surroundings. *)
Record Backends := {
  (* (datetime.now() - timedelta(days=n)).strftime('%Y-%m-%d') *)
  days_ago : Z -> string;
  (* pd.date_range(start, end, freq='D').strftime('%Y-%m-%d').tolist() *)
  date_range : string -> string -> list string;
  (* GET data.binance.vision .../{symbol}/{timeframe}/{symbol}-{timeframe}-{date}.zip *)
  vision_archive : string -> string -> string -> KlineResponse;
  (* GET api/v3/klines?symbol=&interval=&limit= *)
  klines_api : string -> string -> Z -> KlineResponse
}.

(** [df.set_index('timestamp')] followed by [df[['close']]]. *)
Definition close_frame (rows : list Kline) : Frame :=
  map (fun k => (timestamp k, close k)) rows.

Definition get_binance_vision_data (bk : Backends) (symbol : string)
    (date : option string) (timeframe : string) : option Frame :=
  let date := match date with
              | None => days_ago bk 1
              | Some d => d
              end in
  let response := vision_archive bk symbol timeframe date in
  if negb (status_code response =? 200) then None
  else Some (close_frame (content response)).

Definition get_binance_klines (bk : Backends) (symbol interval : string)
    (limit : Z) : option Frame :=
  let response := klines_api bk symbol interval limit in
  if negb (status_code response =? 200) then None
  else Some (close_frame (content response)).

(** ** Aggregator: the merge *)

(** A data frame with one column per symbol; a cell is [None] when it is
    NaN, from the payload or from the alignment. *)
Record Table := {
  columns : list string;
  rows : list (Z * list (option V))
}.

Definition index (df : Table) : list Z := map fst (rows df).

Definition frame_index (f : Frame) : list Z := map fst f.

(** The value of the first row with this label; NaN without such a row. *)
Fixpoint lookup (t : Z) (f : Frame) : option V :=
  match f with
  | [] => None
  | (t', v) :: rest => if t' =? t then v else lookup t rest
  end.

(** The column of one frame on the combined index.  A frame that already
    has that index is taken as it is; another one is reindexed, which the
    library refuses for an index with a repeated label. *)
Definition reindex (new_labels : list Z) (f : Frame)
  : result (list (option V)) :=
  if index_equals new_labels (frame_index f) then Ok (map snd f)
  else if has_duplicates (frame_index f)
  then Raise (InvalidIndexError
                "Reindexing only valid with uniquely valued Index objects")
  else Ok (map (fun t => lookup t f) new_labels).

Fixpoint reindex_all (new_labels : list Z) (frames : list Frame)
  : result (list (list (option V))) :=
  match frames with
  | [] => Ok []
  | f :: rest =>
      match reindex new_labels f with
      | Raise e => Raise e
      | Ok col =>
          match reindex_all new_labels rest with
          | Raise e => Raise e
          | Ok cols => Ok (col :: cols)
          end
      end
  end.

(** The rows of a table given by its index and its columns. *)
Fixpoint build_rows (labels : list Z) (cols : list (list (option V)))
  : list (Z * list (option V)) :=
  match labels with
  | [] => []
  | t :: rest =>
      (t, map (hd None) cols) :: build_rows rest (map (@tl (option V)) cols)
  end.

(** [pd.concat(frames, axis=1)] on frames whose column has been renamed to
    the symbol: outer alignment on the combined index. *)
Definition concat_axis1 (frames : list (string * Frame)) : result Table :=
  let new_labels :=
    union_indexes (map (fun c => frame_index (snd c)) frames) in
  match reindex_all new_labels (map snd frames) with
  | Raise e => Raise e
  | Ok cols =>
      Ok {| columns := map fst frames; rows := build_rows new_labels cols |}
  end.

Definition is_some {A : Type} (o : option A) : bool :=
  match o with
  | Some _ => true
  | None => false
  end.

(** [df.dropna()]: keep the rows without a NaN cell. *)
Definition dropna (df : Table) : Table :=
  {| columns := columns df;
     rows := filter (fun row => forallb is_some (snd row)) (rows df) |}.

(** Lines 289-290 and 364-365. *)
Definition post_fetch_merge (frames : list (string * Frame)) : result Table :=
  match concat_axis1 frames with
  | Raise e => Raise e
  | Ok df => Ok (dropna df)
  end.

(** The report printed after the merge evaluates [df.index[0]] and
    [df.index[-1]]; both raise on an empty index. *)
Definition report_and_return (df : Table) : result Table :=
  match index df with
  | [] => Raise (IndexError "index 0 is out of bounds for axis 0 with size 0")
  | _ :: _ => Ok df
  end.

(** The symbol list the aggregator works on. *)
Definition symbols_or_top (ex : Exchange) (symbols : option (list string))
    (api_key : option string) (target_count : Z) : list string :=
  let api_key := match api_key with
                 | None => getenv_api_key ex
                 | Some k => Some k
                 end in
  match symbols with
  | None => get_top10_symbols ex api_key target_count (target_count + 10)
  | Some l => l
  end.

(** ** Aggregator: rolling window mode, [get_multiple_cryptos_data] *)

Record RollState := {
  all_data : list (string * Frame);
  successful_symbols : list string;
  failed_symbols : list string
}.

Definition api_limit (days_back : Z) (timeframe : string) : Z :=
  if String.eqb timeframe "1h" then Z.min (days_back * 24) 1000 else days_back.

(** The value of [data] after the [source] dispatch. *)
Definition fetch_by_source (bk : Backends) (source : string) (days_back : Z)
    (timeframe symbol : string) : option Frame :=
  if String.eqb source "auto" then
    match get_binance_vision_data bk symbol None timeframe with
    | None =>
        get_binance_klines bk symbol timeframe (api_limit days_back timeframe)
    | Some data => Some data
    end
  else if String.eqb source "vision" then
    get_binance_vision_data bk symbol None timeframe
  else if String.eqb source "api" then
    get_binance_klines bk symbol timeframe (api_limit days_back timeframe)
  else None.

(** One iteration of [for i, symbol in enumerate(symbols)]. *)
Definition roll_step (bk : Backends) (source : string) (days_back : Z)
    (timeframe : string) (st : RollState) (symbol : string) : RollState :=
  match fetch_by_source bk source days_back timeframe symbol with
  | Some data =>
      if len data >? 0 then
        {| all_data := all_data st ++ [(symbol, data)];
           successful_symbols := successful_symbols st ++ [symbol];
           failed_symbols := failed_symbols st |}
      else
        {| all_data := all_data st;
           successful_symbols := successful_symbols st;
           failed_symbols := failed_symbols st ++ [symbol] |}
  | None =>
      {| all_data := all_data st;
         successful_symbols := successful_symbols st;
         failed_symbols := failed_symbols st ++ [symbol] |}
  end.

Definition roll_init : RollState :=
  {| all_data := []; successful_symbols := []; failed_symbols := [] |}.

(** The state when the fetch loop ends. *)
Definition rolling_fetch (ex : Exchange) (bk : Backends)
    (symbols : option (list string)) (source : string) (days_back : Z)
    (timeframe : string) (api_key : option string) (target_count : Z)
  : RollState :=
  fold_left (roll_step bk source days_back timeframe)
            (symbols_or_top ex symbols api_key target_count) roll_init.

Definition get_multiple_cryptos_data (ex : Exchange) (bk : Backends)
    (symbols : option (list string)) (source : string) (days_back : Z)
    (timeframe : string) (api_key : option string) (target_count : Z)
  : result Table :=
  let st := rolling_fetch ex bk symbols source days_back timeframe api_key
                          target_count in
  match all_data st with
  | [] => Raise (ValueError "No data was successfully fetched for any symbol")
  | _ :: _ =>
      match post_fetch_merge (all_data st) with
      | Raise e => Raise e
      | Ok combined_df => report_and_return combined_df
      end
  end.

(** ** Aggregator: multi-day mode, [get_crypto_data_multi_day] *)

(** The keyword parameters of the signature (lines 302-303). *)
Definition get_crypto_data_multi_day_params : list string :=
  ["symbols"; "start_date"; "end_date"; "api_key"; "target_count"].

(** One call of [get_binance_vision_data]. *)
Record Fetch := {
  fetch_symbol : string;
  fetch_date : string;
  fetch_timeframe : string
}.

Record MultiState := {
  all_symbol_data : list (string * Frame);   (* a dict, in insertion order *)
  successful_count : Z;
  fetch_log : list Fetch                     (* the calls issued so far *)
}.

(** [d[k] = v]: a present key keeps its place. *)
Fixpoint dict_set (k : string) (v : Frame) (d : list (string * Frame))
  : list (string * Frame) :=
  match d with
  | [] => [(k, v)]
  | (k', v') :: rest =>
      if String.eqb k' k then (k, v) :: rest else (k', v') :: dict_set k v rest
  end.

(** The loop [for date in dates] for one symbol: the frames collected, the
    count of successful days and the calls issued. *)
Definition day_loop (bk : Backends) (symbol : string) (dates : list string)
  : list Frame * Z * list Fetch :=
  fold_left
    (fun '(symbol_data_list, successful_days, log) date =>
       let data := get_binance_vision_data bk symbol (Some date) "1h" in
       let log := (log ++ [ {| fetch_symbol := symbol; fetch_date := date;
                               fetch_timeframe := "1h" |} ])%list in
       match data with
       | Some df => ((symbol_data_list ++ [df])%list, successful_days + 1, log)
       | None => (symbol_data_list, successful_days, log)
       end)
    dates ([], 0, []).

(** The body of [for symbol in symbols] after the early-exit test. *)
Definition symbol_step (bk : Backends) (dates : list string)
    (st : MultiState) (symbol : string) : MultiState :=
  let '(symbol_data_list, successful_days, log) := day_loop bk symbol dates in
  match symbol_data_list with
  | _ :: _ =>
      let symbol_combined := List.concat symbol_data_list in
      {| all_symbol_data := dict_set symbol symbol_combined (all_symbol_data st);
         successful_count := successful_count st + 1;
         fetch_log := fetch_log st ++ log |}
  | [] =>
      {| all_symbol_data := all_symbol_data st;
         successful_count := successful_count st;
         fetch_log := fetch_log st ++ log |}
  end.

Fixpoint multi_day_loop (bk : Backends) (target_count : Z)
    (dates : list string) (symbols : list string) (st : MultiState)
  : MultiState :=
  match symbols with
  | [] => st
  | symbol :: rest =>
      if successful_count st >=? target_count then st
      else multi_day_loop bk target_count dates rest
             (symbol_step bk dates st symbol)
  end.

Definition multi_init : MultiState :=
  {| all_symbol_data := []; successful_count := 0; fetch_log := [] |}.

(** The dates of the range, with the defaults of a missing bound. *)
Definition multi_day_dates (bk : Backends) (start_date end_date : option string)
  : list string :=
  let start_date := match start_date with
                    | None => days_ago bk 7
                    | Some d => d
                    end in
  let end_date := match end_date with
                  | None => days_ago bk 1
                  | Some d => d
                  end in
  date_range bk start_date end_date.

(** The state when the fetch loop ends. *)
Definition multi_day_fetch (ex : Exchange) (bk : Backends)
    (symbols : option (list string)) (start_date end_date : option string)
    (api_key : option string) (target_count : Z) : MultiState :=
  multi_day_loop bk target_count (multi_day_dates bk start_date end_date)
                 (symbols_or_top ex symbols api_key target_count) multi_init.

Definition get_crypto_data_multi_day (ex : Exchange) (bk : Backends)
    (symbols : option (list string)) (start_date end_date : option string)
    (api_key : option string) (target_count : Z) : result Table :=
  let st := multi_day_fetch ex bk symbols start_date end_date api_key
                            target_count in
  match all_symbol_data st with
  | [] => Raise (ValueError "No data was successfully fetched")
  | _ :: _ =>
      match post_fetch_merge (all_symbol_data st) with
      | Raise e => Raise e
      | Ok final_df => report_and_return final_df
      end
  end.

End Acquisition.

Arguments Kline V : clear implicits.
Arguments KlineResponse V : clear implicits.
Arguments Frame V : clear implicits.
Arguments Backends V : clear implicits.
Arguments Table V : clear implicits.
Arguments RollState V : clear implicits.
Arguments MultiState V : clear implicits.

(** ** Specification vocabulary *)

(** How a pair symbol of the selector's output comes from an asset code:
    resolved against the registry, or concatenated when there is none. *)
Definition resolved_from (registry : list string) (asset pair : string) : Prop :=
  (registry = [] /\ pair = asset ++ "USDT") \/
  find_valid_symbol asset registry = Some pair.

Definition filtered_out (asset : string) : Prop :=
  In asset stablecoins \/ In asset excluded.

(** A pair symbol that comes from an asset code outside both fixed sets. *)
Definition provenance (registry : list string) (pair : string) : Prop :=
  exists asset, ~ filtered_out asset /\ resolved_from registry asset pair.

(** No member is a prefix of a later one, nor the reverse. *)
Fixpoint antichain (bases : list string) : bool :=
  match bases with
  | [] => true
  | b :: rest =>
      andb (forallb (fun b' => andb (negb (String.prefix b b'))
                                    (negb (String.prefix b' b))) rest)
           (antichain rest)
  end.

(** Strictly increasing timestamps: each one is below all later ones. *)
Fixpoint increasing (ts : list Z) : bool :=
  match ts with
  | [] => true
  | t :: rest => andb (forallb (Z.ltb t) rest) (increasing rest)
  end.

(** Every frame has a close other than NaN at the timestamp. *)
Definition in_all {V : Type} (frames : list (string * Frame V)) (t : Z) : bool :=
  forallb (fun c => is_some (lookup t (snd c))) frames.

(** A cell of a column at a label: NaN, or a value of a row of the frame
    with that label. *)
Definition cell_of {V : Type} (f : Frame V) (t : Z) (cell : option V) : Prop :=
  cell = None \/ In (t, cell) f.

(** Rolling window mode: the symbol's fetch yields a series with a row. *)
Definition succeeds {V : Type} (bk : Backends V) (source : string)
    (days_back : Z) (timeframe symbol : string) : bool :=
  match fetch_by_source bk source days_back timeframe symbol with
  | Some data => len data >? 0
  | None => false
  end.

(** Rolling window mode: the column a symbol contributes, if any. *)
Definition column {V : Type} (bk : Backends V) (source : string)
    (days_back : Z) (timeframe symbol : string) : list (string * Frame V) :=
  match fetch_by_source bk source days_back timeframe symbol with
  | Some data => if len data >? 0 then [(symbol, data)] else []
  | None => []
  end.

(** Multi-day mode: some day of the range returned data for the symbol. *)
Definition has_data {V : Type} (bk : Backends V) (dates : list string)
    (symbol : string) : bool :=
  existsb (fun date =>
             is_some (get_binance_vision_data bk symbol (Some date) "1h"))
          dates.

(** Multi-day mode: the per-day frames of a symbol, in date order. *)
Definition day_frames {V : Type} (bk : Backends V) (dates : list string)
    (symbol : string) : list (Frame V) :=
  flat_map (fun date =>
              match get_binance_vision_data bk symbol (Some date) "1h" with
              | Some df => [df]
              | None => []
              end) dates.

(** Multi-day mode: the calls one symbol's day loop issues when it runs to
    completion. *)
Definition day_calls (dates : list string) (symbol : string) : list Fetch :=
  map (fun date => {| fetch_symbol := symbol; fetch_date := date;
                      fetch_timeframe := "1h" |}) dates.

(** Multi-day mode: the successes among the symbols of a list, counted with
    repetitions. *)
Definition successes {V : Type} (bk : Backends V) (dates : list string)
    (symbols : list string) : Z :=
  len (filter (has_data bk dates) symbols).

(** ** Scenarios *)

(** Prices in the scenarios are integers (cents). *)
Definition candle (t price : Z) : Kline Z :=
  {| timestamp := t; open := price; high := price; low := price;
     close := Some price; volume := 0; close_time := t + 3599999;
     quote_asset_volume := 0; trades := 0; taker_base_vol := 0;
     taker_quote_vol := 0; ignore := 0 |}.

Definition not_found : KlineResponse Z :=
  {| status_code := 404; content := [] |}.

Definition found (rows : list (Kline Z)) : KlineResponse Z :=
  {| status_code := 200; content := rows |}.

Definition trading (symbols : list string) : ExchangeInfo :=
  {| exchange_status_code := 200;
     exchange_symbols :=
       map (fun s => {| info_symbol := s; info_status := "TRADING" |}) symbols |}.

Definition ranked (assets : list string) : CmcResponse :=
  {| cmc_status_code := 200; cmc_data := map Build_CmcItem assets |}.

(** Two series that share one hour. *)
Definition frames_overlap : list (string * Frame Z) :=
  [("BTCUSDT", [(1704067200000, Some 4200000); (1704070800000, Some 4210000)]);
   ("ETHUSDT", [(1704070800000, Some 231000); (1704153600000, Some 230000)])].

(** Two series over the same two hours; one close of the first is blank in
    the payload. *)
Definition frames_blank_close : list (string * Frame Z) :=
  [("BTCUSDT", [(1704067200000, Some 4200000); (1704070800000, None)]);
   ("ETHUSDT", [(1704067200000, Some 230000); (1704070800000, Some 231000)])].

(** Neither the registry nor the ranking provider answers. *)
Definition ex_offline : Exchange :=
  {| getenv_api_key := None;
     exchange_info := {| exchange_status_code := 503; exchange_symbols := [] |};
     cmc_listings := fun _ _ => {| cmc_status_code := 503; cmc_data := [] |} |}.

(** The ranking provider lists one asset only. *)
Definition ex_short_ranking : Exchange :=
  {| getenv_api_key := Some "key";
     exchange_info := trading ["BTCUSDT"; "ETHUSDT"];
     cmc_listings := fun _ _ => ranked ["BTC"] |}.

(** The ranking provider lists WBT, which has no pair of its own. *)
Definition ex_wbt : Exchange :=
  {| getenv_api_key := Some "key";
     exchange_info := trading ["BTCUSDT"; "WBTCUSDT"; "ETHUSDT"];
     cmc_listings := fun _ _ => ranked ["BTC"; "WBT"; "ETH"] |}.

(** The registry holds the exact pair of HYPE and a renamed one. *)
Definition registry_hype : list string := ["HYPERUSDT"; "HYPEUSDT"; "BTCUSDT"].

(** Hourly timestamps, in milliseconds: 2024-01-01 00:00 and 01:00, and
    2024-01-02 00:00. *)
Definition jan1_00 : Z := 1704067200000.
Definition jan1_01 : Z := 1704070800000.
Definition jan2_00 : Z := 1704153600000.

Definition two_days (start_date end_date : string) : list string :=
  ["2024-01-01"; "2024-01-02"].

(** The archive has BTCUSDT for the first day only and ETHUSDT for the
    second day only; the live API answers nothing. *)
Definition bk_disjoint_days : Backends Z :=
  {| days_ago := fun n => if n =? 1 then "2024-01-02" else "2024-01-01";
     date_range := two_days;
     vision_archive := fun symbol timeframe date =>
       if andb (String.eqb symbol "BTCUSDT") (String.eqb date "2024-01-01")
       then found [candle jan1_00 4200000; candle jan1_01 4210000]
       else if andb (String.eqb symbol "ETHUSDT") (String.eqb date "2024-01-02")
       then found [candle jan2_00 230000]
       else not_found;
     klines_api := fun _ _ _ => not_found |}.

(** Yesterday's archive has BTCUSDT only; the live API answers an old
    candle for ETHUSDT and nothing else. *)
Definition bk_stale_live : Backends Z :=
  {| days_ago := fun _ => "2024-01-02";
     date_range := two_days;
     vision_archive := fun symbol timeframe date =>
       if String.eqb symbol "BTCUSDT" then found [candle jan2_00 4200000]
       else not_found;
     klines_api := fun symbol interval limit =>
       if String.eqb symbol "ETHUSDT" then found [candle jan1_00 230000]
       else not_found |}.

(** No archive is published; the live API answers candles at different
    hours for the two symbols. *)
Definition bk_live_disjoint : Backends Z :=
  {| days_ago := fun _ => "2024-01-02";
     date_range := two_days;
     vision_archive := fun _ _ _ => not_found;
     klines_api := fun symbol interval limit =>
       if String.eqb symbol "BTCUSDT" then found [candle jan1_00 4200000]
       else if String.eqb symbol "ETHUSDT" then found [candle jan1_01 230000]
       else not_found |}.

(** No archive is published; the live API answers the same two hours for
    BTCUSDT and ETHUSDT, and an empty list of candles for NEWUSDT. *)
Definition bk_live_only : Backends Z :=
  {| days_ago := fun _ => "2024-01-02";
     date_range := two_days;
     vision_archive := fun _ _ _ => not_found;
     klines_api := fun symbol interval limit =>
       if String.eqb symbol "BTCUSDT"
       then found [candle jan1_00 4200000; candle jan1_01 4210000]
       else if String.eqb symbol "ETHUSDT"
       then found [candle jan1_00 230000; candle jan1_01 231000]
       else if String.eqb symbol "NEWUSDT" then found []
       else not_found |}.

(** ** Further vocabulary *)

(** The registry entries the prefix scan of the resolver collects, in
    iteration order. *)
Definition scan_matches (asset : string) (registry : list string) : list string :=
  filter (fun symbol => andb (startswith symbol asset) (endswith symbol "USDT"))
         registry.

(** The pair symbols a list of asset codes resolves to, in order; a code
    without a pair contributes nothing. *)
Definition resolutions (registry : list string) (assets : list string)
  : list string :=
  flat_map (fun asset =>
              match find_valid_symbol asset registry with
              | Some valid_pair => [valid_pair]
              | None => []
              end) assets.

(** The asset codes of a ranking that pass the two fixed filters. *)
Definition ranked_assets (data : list CmcItem) : list string :=
  filter (fun asset => negb (orb (mem asset stablecoins) (mem asset excluded)))
         (map item_symbol data).

(** What the primary path can contribute: nothing unless there is a key, a
    registry and a ranking answered with status 200. *)
Definition ranked_candidates (ex : Exchange) (api_key : option string)
    (max_fetch : Z) : list string :=
  let api_key := match api_key with
                 | None => getenv_api_key ex
                 | Some k => Some k
                 end in
  let registry := get_all_binance_symbols ex in
  if andb (truthy_opt api_key) (negb (len registry =? 0)) then
    let response :=
      cmc_listings ex (match api_key with Some k => k | None => "" end)
                   (max_fetch + 15) in
    if cmc_status_code response =? 200
    then resolutions registry (ranked_assets (cmc_data response))
    else []
  else [].


(** What the fallback path can contribute. *)
Definition fallback_candidates (registry : list string) : list string :=
  if negb (len registry =? 0) then resolutions registry fallback_bases
  else map (fun base => base ++ "USDT") fallback_bases.

(** What the multi-day loop keeps true of its dictionary and its counter. *)
Definition recorded_ok {V : Type} (bk : Backends V) (dates : list string)
    (st : MultiState V) : Prop :=
  NoDup (map fst (all_symbol_data st)) /\
  len (all_symbol_data st) <= successful_count st /\
  forall c, In c (all_symbol_data st) ->
            snd c = List.concat (day_frames bk dates (fst c)).

(** A registry in which HYPE is listed under two other names. *)
Definition registry_renamed : list string :=
  ["BTCUSDT"; "HYPEZUSDT"; "HYPERUSDT"; "ETHUSDT"].

(** A metadata response with a repeated pair, a halted pair and a pair
    quoted in another currency. *)
Definition ex_mixed_listing : Exchange :=
  {| getenv_api_key := None;
     exchange_info :=
       {| exchange_status_code := 200;
          exchange_symbols :=
            [ {| info_symbol := "BTCUSDT"; info_status := "TRADING" |};
              {| info_symbol := "ETHBTC"; info_status := "TRADING" |};
              {| info_symbol := "LUNAUSDT"; info_status := "BREAK" |};
              {| info_symbol := "BTCUSDT"; info_status := "TRADING" |};
              {| info_symbol := "ETHUSDT"; info_status := "TRADING" |} ] |};
     cmc_listings := fun _ _ => {| cmc_status_code := 503; cmc_data := [] |} |}.

(* ================================================================== *)
(** * Part II: properties *)
(* ================================================================== *)

(** ** Strings and lists *)

Lemma mem_In (x : string) (xs : list string) : mem x xs = true <-> In x xs.
Proof.
  unfold mem. rewrite existsb_exists. split.
  - intros [y [Hy Heq]]. apply String.eqb_eq in Heq. now subst.
  - intros H. exists x. split; [assumption | apply String.eqb_refl].
Qed.

Lemma mem_false (x : string) (xs : list string) : mem x xs = false <-> ~ In x xs.
Proof.
  rewrite <- mem_In. destruct (mem x xs); split; congruence.
Qed.

Lemma prefix_app (a t : string) : String.prefix a (a ++ t) = true.
Proof.
  induction a as [|c a IH]; simpl.
  - now destruct t.
  - destruct (ascii_dec c c); [exact IH | congruence].
Qed.

Lemma prefix_comparable (a b s : string) :
  String.prefix a s = true -> String.prefix b s = true ->
  String.prefix a b = true \/ String.prefix b a = true.
Proof.
  revert b s. induction a as [|c a IH]; intros b s Ha Hb.
  - left. now destruct b.
  - destruct b as [|d b]; [right; reflexivity|].
    destruct s as [|e s]; [discriminate|].
    simpl in Ha, Hb |- *.
    destruct (ascii_dec c e); [subst e | discriminate].
    destruct (ascii_dec d c); [subst d | discriminate].
    destruct (ascii_dec c c); [| congruence].
    eapply IH; eassumption.
Qed.

Lemma substring_app_tail (a q : string) :
  substring (String.length a) (String.length q) (a ++ q) = q.
Proof.
  induction a as [|c a IH]; simpl.
  - induction q as [|d q IHq]; simpl; [reflexivity|]. now rewrite IHq.
  - exact IH.
Qed.

Lemma substring_app_head (a q : string) :
  substring 0 (String.length a) (a ++ q) = a.
Proof.
  induction a as [|c a IH]; simpl.
  - now destruct q.
  - now rewrite IH.
Qed.

Lemma string_length_app (a q : string) :
  String.length (a ++ q) = (String.length a + String.length q)%nat.
Proof. induction a; simpl; congruence. Qed.

Lemma endswith_app (a q : string) : endswith (a ++ q) q = true.
Proof.
  unfold endswith. rewrite string_length_app.
  replace (String.length a + String.length q - String.length q)%nat
    with (String.length a) by lia.
  rewrite substring_app_tail, String.eqb_refl.
  rewrite andb_true_r. apply Nat.leb_le. lia.
Qed.

Lemma base_asset_app (a : string) : base_asset (a ++ "USDT") = a.
Proof.
  unfold base_asset. rewrite endswith_app, string_length_app. simpl String.length.
  replace (String.length a + 4 - 4)%nat with (String.length a) by lia.
  apply substring_app_head.
Qed.

Lemma len_app {A : Type} (xs ys : list A) : len (xs ++ ys) = len xs + len ys.
Proof. unfold len. rewrite List.length_app. lia. Qed.

Lemma len_nonneg {A : Type} (xs : list A) : 0 <= len xs.
Proof. unfold len. lia. Qed.

Lemma len_zero {A : Type} (xs : list A) : (len xs =? 0) = true -> xs = [].
Proof.
  intros H. apply Z.eqb_eq in H. destruct xs; [reflexivity|].
  unfold len in H. simpl List.length in H. lia.
Qed.

Lemma firstn_In {A : Type} (n : nat) (xs : list A) (x : A) :
  In x (firstn n xs) -> In x xs.
Proof.
  intros H. rewrite <- (firstn_skipn n xs). apply in_or_app. now left.
Qed.

Lemma slice_to_In {A : Type} (n : Z) (xs : list A) (x : A) :
  In x (slice_to n xs) -> In x xs.
Proof.
  unfold slice_to. destruct (0 <=? n); apply firstn_In.
Qed.

Lemma NoDup_firstn {A : Type} (n : nat) (xs : list A) :
  NoDup xs -> NoDup (firstn n xs).
Proof.
  intros H. rewrite <- (firstn_skipn n xs) in H.
  now apply NoDup_app_remove_r in H.
Qed.

Lemma slice_to_NoDup {A : Type} (n : Z) (xs : list A) :
  NoDup xs -> NoDup (slice_to n xs).
Proof.
  unfold slice_to. destruct (0 <=? n); apply NoDup_firstn.
Qed.

Lemma slice_to_len {A : Type} (n : Z) (xs : list A) :
  len xs <= Z.max 0 n -> len (slice_to n xs) <= Z.max 0 n.
Proof.
  unfold slice_to, len. intros H.
  destruct (0 <=? n); rewrite length_firstn; lia.
Qed.

(** ** Symbol Resolver *)

Lemma first_valid_scan (l valid_symbols : list string) (s : string) :
  first_valid (map Some l) valid_symbols = Some s ->
  In s l /\ In s valid_symbols.
Proof.
  induction l as [|x l IH]; simpl; [discriminate|].
  destruct (truthy x && mem x valid_symbols) eqn:E.
  - intros H. injection H as ->. apply andb_prop in E as [_ E].
    apply mem_In in E. auto.
  - intros H. destruct (IH H). auto.
Qed.

(** Every answer of the resolver is in the registry, and is the exact
    concatenation, the upper-cased concatenation, the alias of HYPE, or a
    registry entry that starts with the asset code and ends with the quote. *)
Lemma find_valid_symbol_cases (base_symbol s : string) (valid_symbols : list string) :
  find_valid_symbol base_symbol valid_symbols = Some s ->
  In s valid_symbols /\
  (s = base_symbol ++ "USDT" \/
   s = upper base_symbol ++ "USDT" \/
   (base_symbol = "HYPE" /\ s = "HYPERUSDT") \/
   (startswith s base_symbol = true /\ endswith s "USDT" = true)).
Proof.
  unfold find_valid_symbol.
  destruct (mem (base_symbol ++ "USDT") valid_symbols) eqn:Hex.
  - intros H. injection H as <-. apply mem_In in Hex. auto.
  - unfold variations. cbn [app first_valid].
    destruct (truthy_opt (Some (upper base_symbol ++ "USDT")) &&
              mem (upper base_symbol ++ "USDT") valid_symbols) eqn:Hup.
    + intros H. injection H as <-. apply andb_prop in Hup as [_ Hup].
      apply mem_In in Hup. auto.
    + destruct (String.eqb base_symbol "HYPE") eqn:Hhype.
      * apply String.eqb_eq in Hhype.
        destruct (truthy_opt (Some ("HYPER" ++ "USDT")) &&
                  mem ("HYPER" ++ "USDT") valid_symbols) eqn:Hal.
        -- intros H. injection H as <-. apply andb_prop in Hal as [_ Hal].
           apply mem_In in Hal. split; [exact Hal|].
           right; right; left. split; [exact Hhype | reflexivity].
        -- intros H. apply first_valid_scan in H as [Hin Hreg].
           apply filter_In in Hin as [_ Hin]. apply andb_prop in Hin.
           split; [exact Hreg | now do 3 right].
      * cbn [truthy_opt andb].
        intros H. apply first_valid_scan in H as [Hin Hreg].
        apply filter_In in Hin as [_ Hin]. apply andb_prop in Hin.
        split; [exact Hreg | now do 3 right].
Qed.

Lemma find_valid_symbol_exact (base_symbol : string) (valid_symbols : list string) :
  In (base_symbol ++ "USDT") valid_symbols ->
  find_valid_symbol base_symbol valid_symbols = Some (base_symbol ++ "USDT").
Proof.
  intros H. unfold find_valid_symbol.
  apply mem_In in H. now rewrite H.
Qed.

(** An upper-case asset code other than through the alias resolves to a
    symbol that starts with it. *)
Lemma find_valid_symbol_prefix (base_symbol s : string) (valid_symbols : list string) :
  upper base_symbol = base_symbol ->
  find_valid_symbol base_symbol valid_symbols = Some s ->
  String.prefix base_symbol s = true.
Proof.
  intros Hup H. apply find_valid_symbol_cases in H as [_ H].
  rewrite Hup in H.
  destruct H as [-> | [-> | [[-> ->] | [H _]]]];
    try apply prefix_app; [reflexivity | exact H].
Qed.

(** ** Ranked Candidate Selector: length *)

Lemma cmc_loop_len (reg : list string) (t : Z) (data : list CmcItem) :
  forall acc, len acc <= Z.max 0 t -> len (cmc_loop reg t data acc) <= Z.max 0 t.
Proof.
  induction data as [|item data IH]; intros acc Hacc; cbn [cmc_loop];
    [assumption|].
  destruct (len acc >=? t) eqn:Hge; [assumption|].
  destruct (mem (item_symbol item) stablecoins || mem (item_symbol item) excluded);
    [now apply IH|].
  destruct (find_valid_symbol (item_symbol item) reg) as [p|]; [|now apply IH].
  destruct (truthy p); [|now apply IH].
  apply IH. rewrite len_app. unfold len at 2. simpl. lia.
Qed.

Lemma fallback_loop_len (reg : list string) (t : Z) (bases : list string) :
  forall acc, len acc <= Z.max 0 t ->
              len (fallback_loop reg t bases acc) <= Z.max 0 t.
Proof.
  induction bases as [|base bases IH]; intros acc Hacc; cbn [fallback_loop];
    [assumption|].
  destruct (len acc >=? t) eqn:Hge; [assumption|].
  destruct (negb (len reg =? 0)).
  - destruct (find_valid_symbol base reg) as [p|]; [|now apply IH].
    destruct (truthy p); [|now apply IH].
    apply IH. rewrite len_app. unfold len at 2. simpl. lia.
  - apply IH. rewrite len_app. unfold len at 2. simpl. lia.
Qed.

Lemma primary_path_len (ex : Exchange) (api_key : option string) (t m : Z) :
  match primary_path ex api_key t m with
  | inl l => len l <= Z.max 0 t
  | inr l => len l <= Z.max 0 t
  end.
Proof.
  unfold primary_path.
  destruct (truthy_opt _ && _); [|unfold len; simpl; lia].
  destruct (cmc_status_code _ =? 200); [|unfold len; simpl; lia].
  assert (H : len (cmc_loop (get_all_binance_symbols ex) t
                     (cmc_data (cmc_listings ex
                        match match api_key with
                              | Some k => Some k
                              | None => getenv_api_key ex
                              end with
                        | Some k => k
                        | None => ""
                        end (m + 15))) []) <= Z.max 0 t)
    by (apply cmc_loop_len; unfold len; simpl; lia).
  destruct (_ >=? t); [now apply slice_to_len | exact H].
Qed.

Lemma get_top10_symbols_len (ex : Exchange) (api_key : option string) (t m : Z) :
  len (get_top10_symbols ex api_key t m) <= Z.max 0 t.
Proof.
  unfold get_top10_symbols.
  pose proof (primary_path_len ex api_key t m) as H.
  destruct (primary_path ex api_key t m) as [l|l]; [exact H|].
  apply slice_to_len. now apply fallback_loop_len.
Qed.

(** ** Ranked Candidate Selector: duplicates on the fallback path *)

Lemma NoDup_snoc {A : Type} (xs : list A) (x : A) :
  NoDup xs -> ~ In x xs -> NoDup (xs ++ [x]).
Proof.
  induction xs as [|y xs IH]; intros Hnd Hx; simpl.
  - constructor; [intros [] | constructor].
  - inversion Hnd as [|? ? Hy Hnd']; subst. constructor.
    + intros Hin. apply in_app_or in Hin as [Hin | [-> | []]].
      * now apply Hy.
      * apply Hx. now left.
    + apply IH; [assumption|]. intros Hin. apply Hx. now right.
Qed.

Lemma antichain_head (b b' : string) (rest : list string) :
  antichain (b :: rest) = true -> In b' rest ->
  String.prefix b b' = false /\ String.prefix b' b = false.
Proof.
  simpl. intros H Hin. apply andb_prop in H as [H _].
  rewrite forallb_forall in H. specialize (H b' Hin).
  apply andb_prop in H as [H1 H2].
  now destruct (String.prefix b b'), (String.prefix b' b).
Qed.

(** One step of the invariant: a symbol that starts with the current base
    is new, and starts with none of the bases still to come. *)
Lemma fallback_step_fresh (base s : string) (bases acc : list string) :
  antichain (base :: bases) = true ->
  String.prefix base s = true ->
  NoDup acc ->
  (forall s' b, In s' acc -> In b (base :: bases) -> String.prefix b s' = false) ->
  NoDup (acc ++ [s]) /\
  (forall s' b, In s' (acc ++ [s]) -> In b bases -> String.prefix b s' = false).
Proof.
  intros Hanti Hpre Hnd Hinv. split.
  - apply NoDup_snoc; [assumption|]. intros Hin.
    rewrite (Hinv s base Hin (or_introl eq_refl)) in Hpre. discriminate.
  - intros s' b Hin Hb. apply in_app_or in Hin as [Hin | [<- | []]].
    + apply Hinv; [assumption | now right].
    + destruct (String.prefix b s) eqn:Hbs; [|reflexivity].
      destruct (@antichain_head base b bases Hanti Hb) as [H1 H2].
      destruct (@prefix_comparable base b s Hpre Hbs); congruence.
Qed.

Lemma fallback_loop_NoDup (reg : list string) (t : Z) (bases : list string) :
  antichain bases = true ->
  Forall (fun b => upper b = b) bases ->
  forall acc,
    NoDup acc ->
    (forall s b, In s acc -> In b bases -> String.prefix b s = false) ->
    NoDup (fallback_loop reg t bases acc).
Proof.
  induction bases as [|base bases IH]; intros Hanti Hup acc Hnd Hinv;
    cbn [fallback_loop]; [assumption|].
  assert (Hanti' : antichain bases = true)
    by (simpl in Hanti; now apply andb_prop in Hanti).
  inversion Hup as [|? ? Hb Hup']; subst.
  assert (Hkeep : forall s b, In s acc -> In b bases -> String.prefix b s = false)
    by (intros s b Hs Hin; apply Hinv; [assumption | now right]).
  destruct (len acc >=? t); [assumption|].
  destruct (negb (len reg =? 0)).
  - destruct (find_valid_symbol base reg) as [p|] eqn:Hfind;
      [|now apply IH].
    destruct (truthy p); [|now apply IH].
    destruct (@fallback_step_fresh base p bases acc Hanti
                (@find_valid_symbol_prefix base p reg Hb Hfind) Hnd Hinv).
    now apply IH.
  - destruct (@fallback_step_fresh base (base ++ "USDT") bases acc Hanti
                (prefix_app base "USDT") Hnd Hinv).
    now apply IH.
Qed.

Lemma fallback_bases_antichain : antichain fallback_bases = true.
Proof. vm_compute. reflexivity. Qed.

Lemma fallback_bases_upper : Forall (fun b => upper b = b) fallback_bases.
Proof. repeat constructor. Qed.

(** ** Ranked Candidate Selector: where the output comes from *)

Lemma not_filtered_out (a : string) :
  mem a stablecoins || mem a excluded = false -> ~ filtered_out a.
Proof.
  intros H [Hin | Hin]; apply mem_In in Hin; rewrite Hin in H;
    [discriminate | now rewrite orb_true_r in H].
Qed.

Lemma Forall_snoc {A : Type} (P : A -> Prop) (xs : list A) (x : A) :
  Forall P xs -> P x -> Forall P (xs ++ [x]).
Proof.
  intros Hxs Hx. apply Forall_app. split; [assumption | now constructor].
Qed.

Lemma cmc_loop_provenance (reg : list string) (t : Z) (data : list CmcItem) :
  forall acc, Forall (provenance reg) acc ->
              Forall (provenance reg) (cmc_loop reg t data acc).
Proof.
  induction data as [|item data IH]; intros acc Hacc; cbn [cmc_loop];
    [assumption|].
  destruct (len acc >=? t); [assumption|].
  destruct (mem (item_symbol item) stablecoins || mem (item_symbol item) excluded)
    eqn:Hf; [now apply IH|].
  destruct (find_valid_symbol (item_symbol item) reg) as [p|] eqn:Hfind;
    [|now apply IH].
  destruct (truthy p); [|now apply IH].
  apply IH, Forall_snoc; [assumption|].
  exists (item_symbol item). split; [now apply not_filtered_out | now right].
Qed.

Lemma fallback_loop_provenance (reg : list string) (t : Z) (bases : list string) :
  Forall (fun b => ~ filtered_out b) bases ->
  forall acc, Forall (provenance reg) acc ->
              Forall (provenance reg) (fallback_loop reg t bases acc).
Proof.
  induction bases as [|base bases IH]; intros Hb acc Hacc; cbn [fallback_loop];
    [assumption|].
  inversion Hb as [|? ? Hbase Hb']; subst.
  destruct (len acc >=? t); [assumption|].
  destruct (negb (len reg =? 0)) eqn:Hreg.
  - destruct (find_valid_symbol base reg) as [p|] eqn:Hfind; [|now apply IH].
    destruct (truthy p); [|now apply IH].
    apply IH, Forall_snoc; try assumption.
    exists base. split; [assumption | now right].
  - apply IH, Forall_snoc; try assumption.
    exists base. split; [assumption|]. left. split; [|reflexivity].
    apply len_zero. now destruct (len reg =? 0).
Qed.

Lemma fallback_bases_kept : Forall (fun b => ~ filtered_out b) fallback_bases.
Proof.
  apply Forall_forall. intros b Hb. apply not_filtered_out.
  revert b Hb. apply Forall_forall. repeat constructor.
Qed.

Lemma Forall_slice_to {A : Type} (P : A -> Prop) (n : Z) (xs : list A) :
  Forall P xs -> Forall P (slice_to n xs).
Proof.
  intros H. apply Forall_forall. intros x Hx.
  apply slice_to_In in Hx. revert x Hx. now apply Forall_forall.
Qed.

Lemma get_top10_symbols_provenance (ex : Exchange) (api_key : option string)
    (t m : Z) :
  Forall (provenance (get_all_binance_symbols ex))
         (get_top10_symbols ex api_key t m).
Proof.
  unfold get_top10_symbols, primary_path.
  destruct (truthy_opt _ && _).
  - destruct (cmc_status_code _ =? 200).
    + match goal with
      | |- context [cmc_loop ?r ?t ?d []] =>
          assert (H : Forall (provenance r) (cmc_loop r t d []))
            by (apply cmc_loop_provenance; constructor)
      end.
      destruct (_ >=? t).
      * now apply Forall_slice_to.
      * apply Forall_slice_to, fallback_loop_provenance;
          [apply fallback_bases_kept | exact H].
    + apply Forall_slice_to, fallback_loop_provenance;
        [apply fallback_bases_kept | constructor].
  - apply Forall_slice_to, fallback_loop_provenance;
      [apply fallback_bases_kept | constructor].
Qed.

(** ** Indexes *)

Lemma memZ_In (t : Z) (ts : list Z) : memZ t ts = true <-> In t ts.
Proof.
  unfold memZ. rewrite existsb_exists. split.
  - intros [y [Hy Heq]]. apply Z.eqb_eq in Heq. now subst.
  - intros H. exists t. split; [assumption | apply Z.eqb_refl].
Qed.

Lemma filter_all {A : Type} (p : A -> bool) (xs : list A) :
  (forall x, In x xs -> p x = true) -> filter p xs = xs.
Proof.
  induction xs as [|x xs IH]; intros H; simpl; [reflexivity|].
  rewrite (H x (or_introl eq_refl)), IH; [reflexivity|].
  intros y Hy. apply H. now right.
Qed.

Lemma filter_none {A : Type} (p : A -> bool) (xs : list A) :
  (forall x, In x xs -> p x = false) -> filter p xs = [].
Proof.
  induction xs as [|x xs IH]; intros H; simpl; [reflexivity|].
  rewrite (H x (or_introl eq_refl)). apply IH.
  intros y Hy. apply H. now right.
Qed.

Lemma forallb_map_comp {A B : Type} (p : B -> bool) (g : A -> B) (xs : list A) :
  forallb p (map g xs) = forallb (fun x => p (g x)) xs.
Proof. induction xs as [|x xs IH]; simpl; congruence. Qed.

Lemma index_equals_eq (a b : list Z) : index_equals a b = true -> a = b.
Proof.
  revert b. induction a as [|x a IH]; intros [|y b]; cbn; try discriminate;
    [reflexivity|].
  intros H. apply andb_prop in H as [Hxy Hab]. apply Z.eqb_eq in Hxy.
  f_equal; [assumption | now apply IH].
Qed.

Lemma index_equals_refl (a : list Z) : index_equals a a = true.
Proof. induction a as [|x a IH]; cbn; [reflexivity|]. now rewrite Z.eqb_refl. Qed.

Lemma has_duplicates_NoDup (ts : list Z) :
  has_duplicates ts = false -> NoDup ts.
Proof.
  induction ts as [|t ts IH]; cbn; [constructor|].
  intros H. apply orb_false_elim in H as [Hm Hd]. constructor; [|now apply IH].
  intros Hin. apply memZ_In in Hin. congruence.
Qed.

Lemma increasing_no_duplicates (ts : list Z) :
  increasing ts = true -> has_duplicates ts = false.
Proof.
  induction ts as [|t ts IH]; cbn; [reflexivity|].
  intros H. apply andb_prop in H as [Hlt Hinc]. rewrite IH by assumption.
  rewrite orb_false_r. destruct (memZ t ts) eqn:E; [|reflexivity].
  apply memZ_In in E. rewrite forallb_forall in Hlt. specialize (Hlt t E).
  apply Z.ltb_lt in Hlt. lia.
Qed.

Lemma increasing_filter (p : Z -> bool) (ts : list Z) :
  increasing ts = true -> increasing (filter p ts) = true.
Proof.
  induction ts as [|t ts IH]; simpl; [reflexivity|].
  intros H. apply andb_prop in H as [Hlt Hinc].
  destruct (p t); simpl; [|now apply IH].
  rewrite IH by assumption. rewrite andb_true_r.
  apply forallb_forall. intros x Hx. apply filter_In in Hx as [Hx _].
  rewrite forallb_forall in Hlt. now apply Hlt.
Qed.

Lemma insert_label_In (t x : Z) (l : list Z) :
  In x (insert_label t l) <-> x = t \/ In x l.
Proof.
  induction l as [|y l IH]; cbn.
  - intuition.
  - destruct (t <? y); [cbn; intuition|].
    destruct (t =? y) eqn:E.
    + apply Z.eqb_eq in E. subst. cbn. intuition.
    + cbn. rewrite IH. intuition.
Qed.

Lemma insert_label_increasing (t : Z) (l : list Z) :
  increasing l = true -> increasing (insert_label t l) = true.
Proof.
  induction l as [|y l IH]; cbn; [reflexivity|].
  intros H. apply andb_prop in H as [Hlt Hinc].
  destruct (t <? y) eqn:Ety.
  - cbn. rewrite Ety, Hlt, Hinc. cbn. rewrite andb_true_r.
    apply forallb_forall. intros x Hx. rewrite forallb_forall in Hlt.
    specialize (Hlt x Hx). apply Z.ltb_lt in Ety, Hlt. apply Z.ltb_lt. lia.
  - destruct (t =? y) eqn:Eeq; [cbn; now rewrite Hlt, Hinc|].
    cbn. rewrite IH by assumption. rewrite andb_true_r.
    apply forallb_forall. intros x Hx. apply insert_label_In in Hx.
    apply Z.ltb_ge in Ety. apply Z.eqb_neq in Eeq. apply Z.ltb_lt.
    destruct Hx as [-> | Hx]; [lia|].
    rewrite forallb_forall in Hlt. specialize (Hlt x Hx).
    now apply Z.ltb_lt in Hlt.
Qed.

Lemma sort_labels_In (x : Z) (l : list Z) : In x (sort_labels l) <-> In x l.
Proof.
  unfold sort_labels. induction l as [|y l IH]; cbn; [tauto|].
  rewrite insert_label_In, IH. intuition.
Qed.

Lemma sort_labels_increasing (l : list Z) : increasing (sort_labels l) = true.
Proof.
  unfold sort_labels. induction l as [|y l IH]; cbn; [reflexivity|].
  now apply insert_label_increasing.
Qed.

Lemma count_label_one (t : Z) (ts : list Z) :
  has_duplicates ts = false -> In t ts -> count_label t ts = 1%nat.
Proof.
  induction ts as [|x ts IH]; cbn; [contradiction|].
  intros H Hin. apply orb_false_elim in H as [Hm Hd].
  destruct (x =? t) eqn:E.
  - apply Z.eqb_eq in E. subst x. f_equal.
    clear IH Hin Hd. induction ts as [|y ts IH]; cbn in *; [reflexivity|].
    apply orb_false_elim in Hm as [Hy Hm]. rewrite Z.eqb_sym in Hy.
    rewrite Hy. now apply IH.
  - destruct Hin as [-> | Hin]; [rewrite Z.eqb_refl in E; discriminate|].
    now apply IH.
Qed.

Lemma count_label_le (t : Z) (ts : list Z) :
  has_duplicates ts = false -> (count_label t ts <= 1)%nat.
Proof.
  induction ts as [|x ts IH]; cbn; [lia|].
  intros H. apply orb_false_elim in H as [Hm Hd].
  destruct (x =? t) eqn:E; [|now apply IH].
  apply Z.eqb_eq in E. subst x.
  assert (H0 : count_label t ts = 0%nat); [|lia].
  clear IH Hd. induction ts as [|y ts IH]; cbn in *; [reflexivity|].
  apply orb_false_elim in Hm as [Hy Hm]. rewrite Z.eqb_sym in Hy.
  rewrite Hy. now apply IH.
Qed.

Lemma flat_map_singletons {A : Type} (f : A -> list A) (l : list A) :
  (forall x, In x l -> f x = [x]) -> flat_map f l = l.
Proof.
  induction l as [|x l IH]; intros H; cbn; [reflexivity|].
  rewrite (H x (or_introl eq_refl)), IH; [reflexivity|].
  intros y Hy. apply H. now right.
Qed.

Lemma union_sorted_unique (a b : list Z) :
  has_duplicates a = false -> has_duplicates b = false ->
  union_sorted a b = sort_labels (a ++ b).
Proof.
  intros Ha Hb. unfold union_sorted. apply flat_map_singletons.
  intros t Ht. apply sort_labels_In, in_app_or in Ht.
  pose proof (@count_label_le t a Ha). pose proof (@count_label_le t b Hb).
  assert (Hone : Nat.max (count_label t a) (count_label t b) = 1%nat).
  { destruct Ht as [Ht | Ht].
    - pose proof (@count_label_one t a Ha Ht). lia.
    - pose proof (@count_label_one t b Hb Ht). lia. }
  now rewrite Hone.
Qed.

Lemma index_union_increasing (a b : list Z) :
  increasing a = true -> increasing b = true ->
  increasing (index_union a b) = true /\
  forall t, In t (index_union a b) <-> In t a \/ In t b.
Proof.
  intros Ha Hb. unfold index_union.
  destruct (len b =? 0) eqn:Eb.
  - apply len_zero in Eb. subst b. cbn. split; [assumption|].
    intros t. cbn. tauto.
  - cbn [orb]. destruct (index_equals a b) eqn:Eab.
    + apply index_equals_eq in Eab. subst b. split; [assumption|].
      intros t. tauto.
    + destruct (len a =? 0) eqn:Ea.
      * apply len_zero in Ea. subst a. split; [assumption|].
        intros t. cbn. tauto.
      * rewrite union_sorted_unique by now apply increasing_no_duplicates.
        split; [apply sort_labels_increasing|].
        intros t. now rewrite sort_labels_In, in_app_iff.
Qed.

Lemma fold_index_union_increasing (others : list (list Z)) :
  forall first,
    increasing first = true ->
    (forall i, In i others -> increasing i = true) ->
    increasing (fold_left index_union others first) = true /\
    forall t, In t (fold_left index_union others first) <->
              In t first \/ exists i, In i others /\ In t i.
Proof.
  induction others as [|b others IH]; intros a Ha Hall; cbn [fold_left].
  - split; [assumption|]. intros t. split; [auto | intros [H | [i [[] _]]]; exact H].
  - destruct (@index_union_increasing a b Ha (Hall b (or_introl eq_refl)))
      as [Hinc Hin].
    destruct (IH (index_union a b) Hinc
                 (fun i Hi => Hall i (or_intror Hi))) as [Hinc' Hin'].
    split; [assumption|]. intros t. rewrite Hin', Hin. split.
    + intros [[H | H] | [i [Hi Ht]]]; eauto.
      * right. exists b. split; [now left | assumption].
      * right. exists i. split; [now right | assumption].
    + intros [H | [i [[<- | Hi] Ht]]]; eauto.
Qed.

Lemma union_indexes_increasing (indexes : list (list Z)) :
  (forall i, In i indexes -> increasing i = true) ->
  increasing (union_indexes indexes) = true /\
  forall t, In t (union_indexes indexes) <-> exists i, In i indexes /\ In t i.
Proof.
  destruct indexes as [|first others]; intros Hall; cbn [union_indexes].
  - split; [reflexivity|]. intros t. split; [intros [] | intros [i [[] _]]].
  - destruct (@fold_index_union_increasing others first
                (Hall first (or_introl eq_refl))
                (fun i Hi => Hall i (or_intror Hi))) as [Hinc Hin].
    split; [assumption|]. intros t. rewrite Hin. split.
    + intros [H | [i [Hi Ht]]].
      * exists first. split; [now left | assumption].
      * exists i. split; [now right | assumption].
    + intros [i [[<- | Hi] Ht]]; eauto.
Qed.

Lemma union_indexes_same (first : list Z) (others : list (list Z)) :
  (forall i, In i others -> i = first) ->
  union_indexes (first :: others) = first.
Proof.
  cbn [union_indexes]. induction others as [|b others IH]; intros Hall;
    cbn [fold_left]; [reflexivity|].
  rewrite (Hall b (or_introl eq_refl)). unfold index_union at 2.
  rewrite index_equals_refl, orb_true_r. apply IH.
  intros i Hi. apply Hall. now right.
Qed.

(** ** Aggregator: the merge *)

Section MergeFacts.

Context {V : Type}.

Implicit Types (f : Frame V) (frames : list (string * Frame V)).

Lemma lookup_Some_In (t : Z) (v : V) f :
  lookup t f = Some v -> In (t, Some v) f.
Proof.
  induction f as [|[t' c] f IH]; cbn [lookup]; [discriminate|].
  destruct (t' =? t) eqn:E.
  - apply Z.eqb_eq in E. intros ->. subst. now left.
  - intros H. right. now apply IH.
Qed.

Lemma lookup_unique (t : Z) (c : option V) f :
  NoDup (frame_index f) -> In (t, c) f -> lookup t f = c.
Proof.
  induction f as [|[t' c'] f IH]; cbn [lookup frame_index map fst];
    [contradiction|].
  intros Hnd Hin. inversion Hnd as [|? ? Hnot Hnd']; subst.
  destruct (t' =? t) eqn:E.
  - apply Z.eqb_eq in E. subst t'. destruct Hin as [Heq | Hin].
    + now injection Heq.
    + exfalso. apply Hnot. apply (in_map fst) in Hin. exact Hin.
  - destruct Hin as [Heq | Hin].
    + injection Heq as -> _. rewrite Z.eqb_refl in E. discriminate.
    + now apply IH.
Qed.

Lemma lookup_self f :
  NoDup (frame_index f) ->
  map (fun t => lookup t f) (frame_index f) = map snd f.
Proof.
  intros Hnd. unfold frame_index. rewrite map_map. apply map_ext_in.
  intros [t c] Hin. cbn. now apply lookup_unique.
Qed.

Lemma reindex_unique (labels : list Z) f :
  has_duplicates (frame_index f) = false ->
  reindex labels f = Ok (map (fun t => lookup t f) labels).
Proof.
  intros Hd. unfold reindex. rewrite Hd.
  destruct (index_equals labels (frame_index f)) eqn:E; [|reflexivity].
  apply index_equals_eq in E. subst labels.
  now rewrite lookup_self by now apply has_duplicates_NoDup.
Qed.

Lemma reindex_all_unique (labels : list Z) (fs : list (Frame V)) :
  (forall f, In f fs -> has_duplicates (frame_index f) = false) ->
  reindex_all labels fs = Ok (map (fun f => map (fun t => lookup t f) labels) fs).
Proof.
  induction fs as [|f fs IH]; intros H; cbn [reindex_all map]; [reflexivity|].
  rewrite reindex_unique by (apply H; now left).
  rewrite IH; [reflexivity|]. intros g Hg. apply H. now right.
Qed.

Lemma build_rows_lookup (labels : list Z) (fs : list (Frame V)) :
  build_rows labels (map (fun f => map (fun t => lookup t f) labels) fs) =
  map (fun t => (t, map (fun f => lookup t f) fs)) labels.
Proof.
  induction labels as [|t labels IH]; cbn [build_rows map]; [reflexivity|].
  rewrite !map_map. cbn [hd tl]. f_equal. exact IH.
Qed.

(** On frames without a repeated label the concatenation never raises and
    aligns by label. *)
Lemma concat_unique frames :
  (forall c, In c frames -> has_duplicates (frame_index (snd c)) = false) ->
  concat_axis1 frames =
  Ok {| columns := map fst frames;
        rows := map (fun t => (t, map (fun c => lookup t (snd c)) frames))
                    (union_indexes (map (fun c => frame_index (snd c)) frames)) |}.
Proof.
  intros H. unfold concat_axis1. rewrite reindex_all_unique.
  - rewrite build_rows_lookup. do 2 f_equal. apply map_ext.
    intros t. now rewrite map_map.
  - intros f Hf. apply in_map_iff in Hf as [c [<- Hc]]. now apply H.
Qed.

Lemma merge_unique frames :
  (forall c, In c frames -> has_duplicates (frame_index (snd c)) = false) ->
  post_fetch_merge frames =
  Ok {| columns := map fst frames;
        rows := filter (fun row => forallb is_some (snd row))
                  (map (fun t => (t, map (fun c => lookup t (snd c)) frames))
                       (union_indexes
                          (map (fun c => frame_index (snd c)) frames))) |}.
Proof.
  intros H. unfold post_fetch_merge. now rewrite concat_unique.
Qed.

Lemma merged_index frames (labels : list Z) :
  map fst (filter (fun row : Z * list (option V) => forallb is_some (snd row))
             (map (fun t => (t, map (fun c => lookup t (snd c)) frames)) labels))
  = filter (in_all frames) labels.
Proof.
  induction labels as [|t ts IH]; simpl; [reflexivity|].
  rewrite <- IH, forallb_map_comp. unfold in_all.
  now destruct (forallb _ frames).
Qed.

Lemma in_all_spec frames (t : Z) :
  (forall c, In c frames -> NoDup (frame_index (snd c))) ->
  in_all frames t = true <->
  forall c, In c frames -> exists v, In (t, Some v) (snd c).
Proof.
  intros Hnd. unfold in_all. rewrite forallb_forall. split; intros H c Hc.
  - specialize (H c Hc). destruct (lookup t (snd c)) as [v|] eqn:E;
      [|discriminate].
    exists v. now apply lookup_Some_In.
  - destruct (H c Hc) as [v Hv].
    now rewrite (@lookup_unique t (Some v) (snd c) (Hnd c Hc) Hv).
Qed.

Lemma increasing_NoDup (ts : list Z) : increasing ts = true -> NoDup ts.
Proof. intros H. now apply has_duplicates_NoDup, increasing_no_duplicates. Qed.

(** The merge of series with strictly increasing timestamps. *)
Lemma merge_increasing frames :
  frames <> [] ->
  (forall c, In c frames -> increasing (frame_index (snd c)) = true) ->
  exists df,
    post_fetch_merge frames = Ok df /\
    columns df = map fst frames /\
    (forall t, In t (index df) <->
               forall c, In c frames -> exists v, In (t, Some v) (snd c)) /\
    increasing (index df) = true /\
    Forall (fun row => List.length (snd row) = List.length frames /\
                       Forall (fun cell => cell <> None) (snd row))
           (rows df).
Proof.
  intros Hne Hinc.
  assert (Hdup : forall c, In c frames ->
                           has_duplicates (frame_index (snd c)) = false)
    by (intros c Hc; now apply increasing_no_duplicates, Hinc).
  assert (Hnd : forall c, In c frames -> NoDup (frame_index (snd c)))
    by (intros c Hc; now apply increasing_NoDup, Hinc).
  destruct (@union_indexes_increasing
              (map (fun c => frame_index (snd c)) frames)) as [HLinc HLin].
  { intros i Hi. apply in_map_iff in Hi as [c [<- Hc]]. now apply Hinc. }
  eexists. split; [now apply merge_unique|].
  split; [reflexivity|]. unfold index. cbn [rows columns].
  rewrite merged_index. split; [|split].
  - intros t. rewrite filter_In, in_all_spec by assumption. split.
    + now intros [_ H].
    + intros H. split; [|assumption].
      destruct frames as [|c frames']; [congruence|].
      apply HLin. exists (frame_index (snd c)). split.
      * apply in_map_iff. exists c. split; [reflexivity | now left].
      * destruct (H c (or_introl eq_refl)) as [v Hv].
        apply (in_map fst) in Hv. exact Hv.
  - now apply increasing_filter.
  - apply Forall_forall. intros [t cells] Hrow.
    apply filter_In in Hrow as [Hin Hok]. apply in_map_iff in Hin as [t' [Heq _]].
    injection Heq as -> <-. cbn [snd] in *. split; [apply length_map|].
    apply Forall_forall. intros cell Hcell.
    rewrite forallb_forall in Hok. specialize (Hok cell Hcell).
    now destruct cell.
Qed.

(** The merge never raises the errors of the aggregator itself. *)
Lemma merge_raises frames (e : exn) :
  post_fetch_merge frames = Raise e ->
  e = InvalidIndexError
        "Reindexing only valid with uniquely valued Index objects".
Proof.
  unfold post_fetch_merge, concat_axis1.
  generalize (union_indexes (map (fun c => frame_index (snd c)) frames)).
  intros labels.
  assert (H : forall (fs : list (Frame V)) e',
             reindex_all labels fs = Raise e' ->
                            e' = InvalidIndexError
                                   "Reindexing only valid with uniquely valued Index objects").
  { induction fs as [|f fs IH]; intros e'; cbn [reindex_all]; [discriminate|].
    unfold reindex.
    destruct (index_equals labels (frame_index f)).
    - destruct (reindex_all labels fs); [discriminate|].
      intros Heq. injection Heq as <-. now apply IH.
    - destruct (has_duplicates (frame_index f)).
      + intros Heq. now injection Heq.
      + destruct (reindex_all labels fs); [discriminate|].
        intros Heq. injection Heq as <-. now apply IH. }
  destruct (reindex_all labels (map snd frames)) eqn:E; [discriminate|].
  intros Heq. injection Heq as <-. now apply (H (map snd frames)).
Qed.

Lemma merge_columns frames (df : Table V) :
  post_fetch_merge frames = Ok df -> columns df = map fst frames.
Proof.
  unfold post_fetch_merge, concat_axis1.
  destruct (reindex_all _ _); [|discriminate].
  intros H. injection H as <-. reflexivity.
Qed.

End MergeFacts.

(** The alignment on small frames: differing indexes are united in sorted
    order; a frame whose index is the combined one keeps its rows, repeated
    labels included; a repeated label that would have to be realigned is
    refused. *)
Example concat_sorts_differing_indexes :
  concat_axis1 [("A", [(3, Some 30); (1, Some 10)]); ("B", [(2, Some 20)])]
  = Ok {| columns := ["A"; "B"];
          rows := [(1, [Some 10; None]); (2, [None; Some 20]);
                   (3, [Some 30; None])] |}.
Proof. reflexivity. Qed.

Example concat_keeps_own_rows :
  concat_axis1 [("A", [(2, Some 20); (1, Some 10); (2, Some 21)])]
  = Ok {| columns := ["A"];
          rows := [(2, [Some 20]); (1, [Some 10]); (2, [Some 21])] |}.
Proof. reflexivity. Qed.

Example concat_refuses_repeated_label :
  concat_axis1 [("A", [(1, Some 10); (1, Some 11)]); ("B", [(2, Some 20)])]
  = Raise (InvalidIndexError
             "Reindexing only valid with uniquely valued Index objects").
Proof. reflexivity. Qed.

Example dropna_drops_nan_close :
  post_fetch_merge frames_blank_close
  = Ok {| columns := ["BTCUSDT"; "ETHUSDT"];
          rows := [(1704067200000, [Some 4200000; Some 230000])] |}.
Proof. reflexivity. Qed.

(** ** Aggregator: rolling window bookkeeping *)

Section RollingFacts.

Context {V : Type}.
Variables (bk : Backends V) (source : string) (days_back : Z) (timeframe : string).

Lemma roll_fold (symbols : list string) :
  forall st,
    fold_left (roll_step bk source days_back timeframe) symbols st =
    {| all_data := all_data st ++ flat_map (column bk source days_back timeframe) symbols;
       successful_symbols :=
         successful_symbols st ++
         filter (succeeds bk source days_back timeframe) symbols;
       failed_symbols :=
         failed_symbols st ++
         filter (fun s => negb (succeeds bk source days_back timeframe s))
                symbols |}.
Proof.
  induction symbols as [|s symbols IH]; intros st; cbn [fold_left flat_map filter].
  - destruct st. cbn. now rewrite !app_nil_r.
  - rewrite IH. unfold roll_step, succeeds, column.
    destruct (fetch_by_source bk source days_back timeframe s) as [data|];
      [destruct (len data >? 0)|]; cbn;
      rewrite <- ?app_assoc; reflexivity.
Qed.

Lemma column_keys (symbols : list string) (s : string) :
  In s (map fst (flat_map (column bk source days_back timeframe) symbols)) <->
  In s symbols /\ succeeds bk source days_back timeframe s = true.
Proof.
  rewrite in_map_iff. split.
  - intros [[s' d] [<- Hin]]. apply in_flat_map in Hin as [x [Hx Hcol]].
    unfold column in Hcol.
    destruct (fetch_by_source bk source days_back timeframe x) as [data|] eqn:Hf;
      [|contradiction].
    destruct (len data >? 0) eqn:E; [|contradiction].
    destruct Hcol as [Heq | []]. injection Heq as <- <-. cbn.
    split; [assumption|]. unfold succeeds. now rewrite Hf.
  - intros [Hin Hs]. unfold succeeds in Hs.
    destruct (fetch_by_source bk source days_back timeframe s) as [data|] eqn:E;
      [|discriminate].
    exists (s, data). split; [reflexivity|].
    apply in_flat_map. exists s. split; [assumption|].
    unfold column. rewrite E, Hs. now left.
Qed.

Lemma column_frames (symbols : list string) (c : string * Frame V) :
  In c (flat_map (column bk source days_back timeframe) symbols) ->
  In (fst c) symbols /\
  fetch_by_source bk source days_back timeframe (fst c) = Some (snd c) /\
  0 < len (snd c).
Proof.
  intros Hin. apply in_flat_map in Hin as [x [Hx Hcol]].
  unfold column in Hcol.
  destruct (fetch_by_source bk source days_back timeframe x) as [data|] eqn:E;
    [|contradiction].
  destruct (len data >? 0) eqn:Hlen; [|contradiction].
  destruct Hcol as [<- | []]. cbn. repeat split; try assumption. lia.
Qed.

End RollingFacts.

(** ** Aggregator: multi-day bookkeeping *)

Section MultiDayFacts.

Context {V : Type}.
Variables (bk : Backends V) (target_count : Z) (dates : list string).

Lemma day_loop_fold (symbol : string) (ds : list string) :
  forall (l : list (Frame V)) (n : Z) (log : list Fetch),
    fold_left
      (fun '(symbol_data_list, successful_days, log) date =>
         let data := get_binance_vision_data bk symbol (Some date) "1h" in
         let log := (log ++ [ {| fetch_symbol := symbol; fetch_date := date;
                                 fetch_timeframe := "1h" |} ])%list in
         match data with
         | Some df => ((symbol_data_list ++ [df])%list, successful_days + 1, log)
         | None => (symbol_data_list, successful_days, log)
         end)
      ds (l, n, log) =
    ((l ++ day_frames bk ds symbol)%list,
     n + len (day_frames bk ds symbol),
     (log ++ day_calls ds symbol)%list).
Proof.
  induction ds as [|d ds IH]; intros l n log; cbn [fold_left].
  - unfold day_frames, day_calls, len. cbn. now rewrite !app_nil_r, Z.add_0_r.
  - unfold day_frames, day_calls. cbn [flat_map map].
    destruct (get_binance_vision_data bk symbol (Some d) "1h") as [df|];
      cbn zeta iota; rewrite IH; unfold day_frames, day_calls;
      rewrite <- !app_assoc; cbn [app]; [|reflexivity].
    do 2 f_equal. unfold len. cbn [List.length]. lia.
Qed.

Lemma day_loop_spec (symbol : string) :
  day_loop bk symbol dates =
  (day_frames bk dates symbol, len (day_frames bk dates symbol),
   day_calls dates symbol).
Proof. unfold day_loop. now rewrite day_loop_fold. Qed.

Lemma day_frames_has_data (symbol : string) :
  has_data bk dates symbol = negb (len (day_frames bk dates symbol) =? 0).
Proof.
  unfold has_data, day_frames. induction dates as [|d ds IH]; [reflexivity|].
  cbn [existsb flat_map].
  destruct (get_binance_vision_data bk symbol (Some d) "1h"); cbn.
  - reflexivity.
  - exact IH.
Qed.

Lemma dict_set_keys (k k' : string) (v : Frame V) (d : list (string * Frame V)) :
  In k' (map fst (dict_set k v d)) <-> k' = k \/ In k' (map fst d).
Proof.
  induction d as [|[k0 v0] d IH]; cbn [dict_set].
  - cbn. intuition.
  - destruct (String.eqb k0 k) eqn:E; cbn [map fst In].
    + apply String.eqb_eq in E. subst. intuition.
    + rewrite IH. intuition.
Qed.

Lemma symbol_step_log (st : MultiState V) (symbol : string) :
  fetch_log (symbol_step bk dates st symbol) =
  (fetch_log st ++ day_calls dates symbol)%list.
Proof.
  unfold symbol_step. rewrite day_loop_spec.
  now destruct (day_frames bk dates symbol).
Qed.

Lemma symbol_step_count (st : MultiState V) (symbol : string) :
  successful_count (symbol_step bk dates st symbol) =
  successful_count st + (if has_data bk dates symbol then 1 else 0).
Proof.
  unfold symbol_step. rewrite day_loop_spec, day_frames_has_data.
  destruct (day_frames bk dates symbol); cbn; lia.
Qed.

Lemma symbol_step_keys (st : MultiState V) (symbol k : string) :
  In k (map fst (all_symbol_data (symbol_step bk dates st symbol))) <->
  In k (map fst (all_symbol_data st)) \/
  (k = symbol /\ has_data bk dates symbol = true).
Proof.
  unfold symbol_step. rewrite day_loop_spec, day_frames_has_data.
  destruct (day_frames bk dates symbol) as [|df dfs]; cbn [all_symbol_data].
  - cbn. intuition discriminate.
  - rewrite dict_set_keys. cbn. intuition.
Qed.

Lemma successes_cons (s : string) (symbols : list string) :
  successes bk dates (s :: symbols) =
  (if has_data bk dates s then 1 else 0) + successes bk dates symbols.
Proof.
  unfold successes, len. cbn [filter].
  destruct (has_data bk dates s); cbn [List.length]; lia.
Qed.

(** The loop splits its input into the symbols it started and the ones it
    left alone. *)
Lemma multi_day_loop_spec (symbols : list string) :
  forall st,
  exists started rest,
    symbols = (started ++ rest)%list /\
    fetch_log (multi_day_loop bk target_count dates symbols st) =
      (fetch_log st ++ flat_map (day_calls dates) started)%list /\
    successful_count (multi_day_loop bk target_count dates symbols st) =
      successful_count st + successes bk dates started /\
    (forall k,
       In k (map fst (all_symbol_data
                        (multi_day_loop bk target_count dates symbols st))) <->
       In k (map fst (all_symbol_data st)) \/
       (In k started /\ has_data bk dates k = true)) /\
    (rest <> [] ->
     target_count <= successful_count st + successes bk dates started) /\
    (forall pre s post,
       started = (pre ++ s :: post)%list ->
       successful_count st + successes bk dates pre < target_count).
Proof.
  assert (Hnone : forall (st : MultiState V) (rest : list string),
             (rest <> [] -> target_count <= successful_count st) ->
             rest = ([] ++ rest)%list /\
             fetch_log st = (fetch_log st ++ flat_map (day_calls dates) [])%list /\
             successful_count st = successful_count st + successes bk dates [] /\
             (forall k,
                In k (map fst (all_symbol_data st)) <->
                In k (map fst (all_symbol_data st)) \/
                (In k [] /\ has_data bk dates k = true)) /\
             (rest <> [] -> target_count <= successful_count st + successes bk dates []) /\
             (forall pre s post,
                [] = (pre ++ s :: post)%list ->
                successful_count st + successes bk dates pre < target_count)).
  { intros st rest Hstop. unfold successes, len. cbn. rewrite app_nil_r.
    split; [reflexivity|]. split; [reflexivity|]. split; [lia|].
    split; [intros k; split; [auto | intros [H | [[] _]]; exact H]|].
    split; [intros H; specialize (Hstop H); lia|].
    intros pre s post H. now destruct pre. }
  induction symbols as [|s symbols IH]; intros st; cbn [multi_day_loop].
  - exists [], []. apply Hnone. congruence.
  - destruct (successful_count st >=? target_count) eqn:Hge.
    + exists [], (s :: symbols). apply Hnone. intros _. lia.
    + destruct (IH (symbol_step bk dates st s))
        as [started [rest [Hsplit [Hlog [Hcount [Hkeys [Hstop Hrun]]]]]]].
      exists (s :: started), rest.
      rewrite symbol_step_log in Hlog. rewrite symbol_step_count in Hcount, Hstop.
      rewrite successes_cons.
      split; [cbn; now rewrite Hsplit|].
      split; [rewrite Hlog; cbn [flat_map]; now rewrite app_assoc|].
      split; [lia|].
      split; [|split].
      * intros k. rewrite Hkeys, symbol_step_keys. cbn [In].
        split.
        -- intros [[H | [-> H]] | [H1 H2]]; auto.
        -- intros [H | [[<- | H1] H2]]; auto.
      * intros Hrest. specialize (Hstop Hrest). lia.
      * intros pre s' post Heq. destruct pre as [|p pre].
        -- unfold successes, len. cbn. lia.
        -- cbn in Heq. injection Heq as <- Heq.
           specialize (Hrun pre s' post Heq).
           rewrite symbol_step_count in Hrun. rewrite successes_cons. lia.
Qed.

End MultiDayFacts.

(** ** Scenario runs *)

Example selector_scenario_filtered :
  get_top10_symbols
    {| getenv_api_key := Some "key";
       exchange_info := trading ["BTCUSDT"; "ETHUSDT"];
       cmc_listings := fun _ _ => ranked ["BTC"; "USDT"; "ETH"] |}
    None 2 12 = ["BTCUSDT"; "ETHUSDT"].
Proof. reflexivity. Qed.

Example selector_scenario_offline :
  get_top10_symbols ex_offline None 2 12 = ["BTCUSDT"; "ETHUSDT"].
Proof. reflexivity. Qed.

Example selector_scenario_short_ranking :
  get_top10_symbols ex_short_ranking None 2 12 = ["BTCUSDT"; "BTCUSDT"].
Proof. reflexivity. Qed.

Example selector_scenario_wbt :
  get_top10_symbols ex_wbt None 3 13 = ["BTCUSDT"; "WBTCUSDT"; "ETHUSDT"].
Proof. reflexivity. Qed.

Example multi_day_scenario_gap :
  day_frames
    {| days_ago := fun _ => "2024-01-03";
       date_range := fun _ _ => ["2024-01-01"; "2024-01-02"; "2024-01-03"];
       vision_archive := fun symbol timeframe date =>
         if String.eqb date "2024-01-01" then found [candle jan1_00 100]
         else if String.eqb date "2024-01-03" then found [candle (jan2_00 + 86400000) 120]
         else not_found;
       klines_api := fun _ _ _ => not_found |}
    ["2024-01-01"; "2024-01-02"; "2024-01-03"] "XUSDT"
  = [[(jan1_00, Some 100)]; [(jan2_00 + 86400000, Some 120)]].
Proof. reflexivity. Qed.

Example rolling_scenario_live_only :
  get_multiple_cryptos_data ex_offline bk_live_only
    (Some ["BTCUSDT"; "NEWUSDT"; "ETHUSDT"]) "auto" 7 "1h" None 10
  = Ok {| columns := ["BTCUSDT"; "ETHUSDT"];
          rows := [(jan1_00, [Some 4200000; Some 230000]);
                   (jan1_01, [Some 4210000; Some 231000])] |}.
Proof. reflexivity. Qed.

Example rolling_scenario_stale_live :
  get_multiple_cryptos_data ex_offline bk_stale_live
    (Some ["BTCUSDT"; "ETHUSDT"]) "auto" 7 "1h" None 10
  = Raise (IndexError "index 0 is out of bounds for axis 0 with size 0").
Proof. reflexivity. Qed.

Example multi_day_scenario_disjoint :
  get_crypto_data_multi_day ex_offline bk_disjoint_days
    (Some ["BTCUSDT"; "ETHUSDT"]) (Some "2024-01-01") (Some "2024-01-02") None 10
  = Raise (IndexError "index 0 is out of bounds for axis 0 with size 0").
Proof. reflexivity. Qed.

(** ** No-data error *)

Lemma columns_none_iff {V : Type} (bk : Backends V) (source : string)
    (days_back : Z) (timeframe : string) (symbols : list string) :
  flat_map (column bk source days_back timeframe) symbols = [] <->
  filter (succeeds bk source days_back timeframe) symbols = [].
Proof.
  induction symbols as [|s l IH]; cbn [flat_map filter]; [tauto|].
  unfold column at 1, succeeds at 1.
  destruct (fetch_by_source bk source days_back timeframe s) as [d|];
    [destruct (len d >? 0)|]; cbn [app]; try exact IH.
  split; discriminate.
Qed.

(** After some series was collected, the no-data error is not raised. *)
Lemma merged_not_no_data {V : Type} (frames : list (string * Frame V))
    (msg : string) :
  match post_fetch_merge frames with
  | Raise e => Raise e
  | Ok df => report_and_return df
  end <> Raise (ValueError msg).
Proof.
  destruct (post_fetch_merge frames) as [df|e] eqn:E.
  - unfold report_and_return. destruct (index df); discriminate.
  - apply merge_raises in E. subst e. discriminate.
Qed.

(** Rolling window mode raises the no-data error exactly when no symbol
    succeeded. *)
Lemma rolling_no_data_iff {V : Type} (ex : Exchange) (bk : Backends V)
    (symbols : option (list string)) (source : string) (days_back : Z)
    (timeframe : string) (api_key : option string) (target_count : Z) :
  get_multiple_cryptos_data ex bk symbols source days_back timeframe api_key
                            target_count
  = Raise (ValueError "No data was successfully fetched for any symbol") <->
  successful_symbols
    (rolling_fetch ex bk symbols source days_back timeframe api_key target_count)
  = [].
Proof.
  unfold get_multiple_cryptos_data, rolling_fetch. rewrite roll_fold.
  cbn [all_data successful_symbols roll_init app].
  rewrite <- (columns_none_iff bk source days_back timeframe).
  destruct (flat_map _ _) as [|c frames]; [tauto|].
  split; [|discriminate]. intros H. now apply merged_not_no_data in H.
Qed.

(** Multi-day mode raises the no-data error exactly when no symbol was
    recorded. *)
Lemma multi_day_no_data_iff {V : Type} (ex : Exchange) (bk : Backends V)
    (symbols : option (list string)) (start_date end_date : option string)
    (api_key : option string) (target_count : Z) :
  get_crypto_data_multi_day ex bk symbols start_date end_date api_key target_count
  = Raise (ValueError "No data was successfully fetched") <->
  all_symbol_data
    (multi_day_fetch ex bk symbols start_date end_date api_key target_count)
  = [].
Proof.
  unfold get_crypto_data_multi_day.
  destruct (all_symbol_data _) as [|c frames]; [tauto|].
  split; [|discriminate]. intros H. now apply merged_not_no_data in H.
Qed.

(** What either mode returns is the merge of the series it collected. *)
Lemma rolling_returns_merge {V : Type} (ex : Exchange) (bk : Backends V)
    (symbols : option (list string)) (source : string) (days_back : Z)
    (timeframe : string) (api_key : option string) (target_count : Z)
    (df : Table V) :
  get_multiple_cryptos_data ex bk symbols source days_back timeframe api_key
                            target_count = Ok df ->
  post_fetch_merge
    (all_data (rolling_fetch ex bk symbols source days_back timeframe
                             api_key target_count)) = Ok df /\
  all_data (rolling_fetch ex bk symbols source days_back timeframe api_key
                          target_count) <> [].
Proof.
  unfold get_multiple_cryptos_data.
  destruct (all_data _) as [|c frames]; [discriminate|].
  destruct (post_fetch_merge (c :: frames)) as [df'|e]; [|discriminate].
  unfold report_and_return. destruct (index df'); [discriminate|].
  intros H. injection H as <-. split; [reflexivity | discriminate].
Qed.

Lemma multi_day_returns_merge {V : Type} (ex : Exchange) (bk : Backends V)
    (symbols : option (list string)) (start_date end_date : option string)
    (api_key : option string) (target_count : Z) (df : Table V) :
  get_crypto_data_multi_day ex bk symbols start_date end_date api_key
                            target_count = Ok df ->
  post_fetch_merge
    (all_symbol_data (multi_day_fetch ex bk symbols start_date end_date
                                      api_key target_count)) = Ok df /\
  all_symbol_data (multi_day_fetch ex bk symbols start_date end_date api_key
                                   target_count) <> [].
Proof.
  unfold get_crypto_data_multi_day.
  destruct (all_symbol_data _) as [|c frames]; [discriminate|].
  destruct (post_fetch_merge (c :: frames)) as [df'|e]; [|discriminate].
  unfold report_and_return. destruct (index df'); [discriminate|].
  intros H. injection H as <-. split; [reflexivity | discriminate].
Qed.

(** The calls of a multi-day run are complete day loops. *)
Lemma multi_day_fetch_log {V : Type} (ex : Exchange) (bk : Backends V)
    (symbols : option (list string)) (start_date end_date : option string)
    (api_key : option string) (target_count : Z) :
  exists started,
    fetch_log (multi_day_fetch ex bk symbols start_date end_date api_key
                               target_count)
    = flat_map (day_calls (multi_day_dates bk start_date end_date)) started.
Proof.
  unfold multi_day_fetch.
  destruct (multi_day_loop_spec bk target_count
              (multi_day_dates bk start_date end_date)
              (symbols_or_top ex symbols api_key target_count) multi_init)
    as [started [_ [_ [Hlog _]]]].
  exists started. exact Hlog.
Qed.

(** ** Ranked Candidate Selector: the list of candidates *)

Lemma truthy_app_quote (a : string) : truthy (a ++ "USDT") = true.
Proof. now destruct a. Qed.

Lemma endswith_truthy (s : string) : endswith s "USDT" = true -> truthy s = true.
Proof. destruct s; [discriminate | reflexivity]. Qed.

Lemma find_valid_symbol_truthy (asset p : string) (reg : list string) :
  find_valid_symbol asset reg = Some p -> truthy p = true.
Proof.
  intros H. apply find_valid_symbol_cases in H as [_ H].
  destruct H as [-> | [-> | [[_ ->] | [_ Hend]]]];
    [apply truthy_app_quote | apply truthy_app_quote | reflexivity
    | now apply endswith_truthy].
Qed.

Lemma firstn_succ_sub (t : Z) (acc : list string) (p : string) (l : list string) :
  (len acc >=? t) = false ->
  ((acc ++ [p]) ++ firstn (Z.to_nat (t - len (acc ++ [p]))) l)%list =
  (acc ++ firstn (Z.to_nat (t - len acc)) (p :: l))%list.
Proof.
  intros Hlt. rewrite len_app. unfold len at 2. cbn [List.length].
  replace (Z.to_nat (t - len acc)) with (S (Z.to_nat (t - (len acc + 1)))) by lia.
  cbn [firstn]. now rewrite <- app_assoc.
Qed.

Lemma firstn_stop (t : Z) (acc l : list string) :
  (len acc >=? t) = true ->
  acc = (acc ++ firstn (Z.to_nat (t - len acc)) l)%list.
Proof.
  intros Hge. replace (Z.to_nat (t - len acc)) with 0%nat by lia.
  cbn [firstn]. now rewrite app_nil_r.
Qed.

Lemma cmc_loop_firstn (reg : list string) (t : Z) (data : list CmcItem) :
  forall acc,
    cmc_loop reg t data acc =
    (acc ++ firstn (Z.to_nat (t - len acc))
                   (resolutions reg (ranked_assets data)))%list.
Proof.
  induction data as [|item data IH]; intros acc; cbn [cmc_loop].
  - unfold ranked_assets, resolutions. cbn. now rewrite firstn_nil, app_nil_r.
  - destruct (len acc >=? t) eqn:Hge; [now apply firstn_stop|].
    unfold ranked_assets. cbn [map filter]. fold (ranked_assets data).
    destruct (mem (item_symbol item) stablecoins || mem (item_symbol item) excluded);
      cbn [negb]; [apply IH|].
    unfold resolutions. cbn [flat_map]. fold (resolutions reg (ranked_assets data)).
    destruct (find_valid_symbol (item_symbol item) reg) as [p|] eqn:Hfind;
      [|apply IH].
    rewrite (find_valid_symbol_truthy _ _ Hfind), IH.
    now apply firstn_succ_sub.
Qed.

Lemma fallback_loop_firstn (reg : list string) (t : Z) (bases : list string) :
  forall acc,
    fallback_loop reg t bases acc =
    (acc ++ firstn (Z.to_nat (t - len acc))
                   (if negb (len reg =? 0) then resolutions reg bases
                    else map (fun base => (base ++ "USDT")%string) bases))%list.
Proof.
  induction bases as [|base bases IH]; intros acc; cbn [fallback_loop].
  - unfold resolutions. cbn. destruct (negb (len reg =? 0));
      now rewrite firstn_nil, app_nil_r.
  - destruct (len acc >=? t) eqn:Hge; [now apply firstn_stop|].
    destruct (negb (len reg =? 0)) eqn:Hreg.
    + unfold resolutions. cbn [flat_map]. fold (resolutions reg bases).
      destruct (find_valid_symbol base reg) as [p|] eqn:Hfind.
      * rewrite (find_valid_symbol_truthy _ _ Hfind), IH.
        now apply firstn_succ_sub.
      * apply IH.
    + rewrite IH. cbn [map]. now apply firstn_succ_sub.
Qed.

Lemma slice_to_all {A : Type} (t : Z) (xs : list A) :
  len xs <= Z.max 0 t -> slice_to t xs = xs.
Proof.
  unfold slice_to, len. intros H. destruct (0 <=? t) eqn:E.
  - apply firstn_all2. lia.
  - destruct xs; [now rewrite firstn_nil|]. cbn [List.length] in H. lia.
Qed.

Lemma get_top10_symbols_firstn (ex : Exchange) (api_key : option string)
    (t m : Z) :
  get_top10_symbols ex api_key t m =
  firstn (Z.to_nat t)
         (ranked_candidates ex api_key m ++
          fallback_candidates (get_all_binance_symbols ex)).
Proof.
  assert (Hfb : slice_to t (fallback_loop (get_all_binance_symbols ex) t
                              fallback_bases [])
                = firstn (Z.to_nat t)
                         (fallback_candidates (get_all_binance_symbols ex))).
  { rewrite slice_to_all
      by (apply fallback_loop_len; unfold len; cbn; lia).
    rewrite fallback_loop_firstn. unfold len at 1. cbn [List.length app].
    now rewrite Z.sub_0_r. }
  unfold get_top10_symbols, primary_path, ranked_candidates.
  destruct (truthy_opt _ && _); [|exact Hfb].
  destruct (cmc_status_code _ =? 200); [|exact Hfb].
  match goal with
  | |- context [cmc_loop ?r t ?d []] =>
      set (R := resolutions r (ranked_assets d));
      assert (Hcmc : cmc_loop r t d [] = firstn (Z.to_nat t) R)
        by (rewrite cmc_loop_firstn; unfold len at 1; cbn [List.length app];
            now rewrite Z.sub_0_r);
      assert (Hlen : len (cmc_loop r t d []) <= Z.max 0 t)
        by (apply cmc_loop_len; unfold len; cbn; lia)
  end.
  rewrite Hcmc in *. clear Hcmc. clearbody R. rewrite firstn_app.
  destruct (len (firstn (Z.to_nat t) R) >=? t) eqn:Hge.
  - rewrite slice_to_all by assumption.
    unfold len in Hge. rewrite length_firstn in Hge.
    apply Z.geb_le in Hge.
    replace (Z.to_nat t - List.length R)%nat with 0%nat by lia.
    cbn [firstn]. now rewrite app_nil_r.
  - unfold len in Hge. rewrite length_firstn in Hge.
    rewrite Z.geb_leb in Hge. apply Z.leb_gt in Hge.
    assert (Hall : firstn (Z.to_nat t) R = R) by (apply firstn_all2; lia).
    rewrite Hall in *.
    rewrite slice_to_all by (now apply fallback_loop_len).
    rewrite fallback_loop_firstn. unfold fallback_candidates.
    f_equal. f_equal. unfold len. lia.
Qed.



(* ================================================================== *)
(** * Part III: the claims *)
(* ================================================================== *)

(** C1, as stated, fails: with a ranking that resolves one symbol and a
    target of two, the fallback appends the same symbol again; and for a
    negative target the empty result is longer than the target. *)
Lemma C1_counterexample :
  ~ NoDup (get_top10_symbols ex_short_ranking None 2 12) /\
  ~ len (get_top10_symbols ex_short_ranking None (-1) 9) <= -1.
Proof.
  split.
  - intros H. change (NoDup ["BTCUSDT"; "BTCUSDT"]) in H.
    inversion H as [|? ? Hin _]. apply Hin. now left.
  - vm_compute. intros H. now apply H.
Qed.

(** C1, amended: for every registry, ranking response, key, target count
    and fetch bound, the selector returns at most [max target_count 0]
    symbols; and when the primary path hands nothing to the fallback (no
    key, no registry, a refused ranking request or no candidate resolved)
    the returned list has no duplicates. *)
Theorem C1_selector_length_and_fallback_nodup
    (ex : Exchange) (api_key : option string) (target_count max_fetch : Z) :
  len (get_top10_symbols ex api_key target_count max_fetch)
    <= Z.max 0 target_count /\
  (primary_path ex api_key target_count max_fetch = inr [] ->
   NoDup (get_top10_symbols ex api_key target_count max_fetch)).
Proof.
  split; [apply get_top10_symbols_len|].
  intros Hprim. unfold get_top10_symbols. rewrite Hprim.
  apply slice_to_NoDup, fallback_loop_NoDup.
  - apply fallback_bases_antichain.
  - apply fallback_bases_upper.
  - constructor.
  - intros s b [].
Qed.

Lemma C1_witness :
  primary_path ex_offline None 3 13 = inr [] /\
  NoDup (get_top10_symbols ex_offline None 3 13).
Proof.
  split; [reflexivity|].
  apply (proj2 (C1_selector_length_and_fallback_nodup ex_offline None 3 13)).
  reflexivity.
Defined.

(** C2, as stated, fails: two series over the same two hours, with
    strictly increasing timestamps; the second close of the first series is
    NaN, that row is dropped, and the index of the merged dataset is the
    first hour only. *)
Lemma C2_counterexample :
  (forall c, In c frames_blank_close ->
             increasing (frame_index (snd c)) = true) /\
  exists df,
    post_fetch_merge frames_blank_close = Ok df /\
    ~ (forall t, In t (index df) <->
                 forall c, In c frames_blank_close ->
                           In t (frame_index (snd c))).
Proof.
  split.
  - intros c [<- | [<- | []]]; reflexivity.
  - eexists. split; [reflexivity|]. intros H.
    assert (Hin : In 1704070800000
                     (index {| columns := ["BTCUSDT"; "ETHUSDT"];
                               rows := [(1704067200000,
                                         [Some 4200000; Some 230000])] |})).
    { apply H. intros c [<- | [<- | []]]; cbn; auto. }
    cbn in Hin. destruct Hin as [Hin | []]. discriminate.
Qed.

(** C2, amended: for successfully fetched series with strictly increasing
    timestamps the merge returns a dataset with one column per series; its
    index is exactly the set of timestamps at which every series has a close
    other than NaN, which is the intersection of the series' timestamp sets
    when no close is NaN; the index is strictly increasing and no cell of the
    result is missing. *)
Theorem C2_merge_index_is_intersection {V : Type}
    (frames : list (string * Frame V)) :
  frames <> [] ->
  (forall c, In c frames -> increasing (frame_index (snd c)) = true) ->
  exists df,
    post_fetch_merge frames = Ok df /\
    (forall t, In t (index df) <->
               forall c, In c frames -> exists v, In (t, Some v) (snd c)) /\
    ((forall c, In c frames -> Forall (fun row => snd row <> None) (snd c)) ->
     forall t, In t (index df) <->
               forall c, In c frames -> In t (frame_index (snd c))) /\
    increasing (index df) = true /\
    columns df = map fst frames /\
    Forall (fun row => List.length (snd row) = List.length frames /\
                       Forall (fun cell => cell <> None) (snd row))
           (rows df).
Proof.
  intros Hne Hinc.
  destruct (merge_increasing Hne Hinc) as [df [Hok [Hcols [Hidx [Hsorted Hrows]]]]].
  exists df. split; [assumption|]. split; [assumption|].
  split; [|split; [assumption|split; assumption]].
  intros Hfull t. rewrite Hidx. split; intros Ht c Hc; specialize (Ht c Hc).
  - destruct Ht as [v Hv]. apply (in_map fst) in Hv. exact Hv.
  - apply in_map_iff in Ht as [[t' cell] [Heq Hin]]. cbn in Heq. subst t'.
    specialize (Hfull c Hc). rewrite Forall_forall in Hfull.
    specialize (Hfull _ Hin). cbn in Hfull.
    destruct cell as [v|]; [now exists v | congruence].
Qed.

Lemma C2_witness :
  exists df,
    post_fetch_merge frames_overlap = Ok df /\
    (forall t, In t (index df) <->
               forall c, In c frames_overlap ->
                         exists v, In (t, Some v) (snd c)) /\
    ((forall c, In c frames_overlap ->
                Forall (fun row => snd row <> None) (snd c)) ->
     forall t, In t (index df) <->
               forall c, In c frames_overlap -> In t (frame_index (snd c))) /\
    increasing (index df) = true /\
    columns df = map fst frames_overlap /\
    Forall (fun row => List.length (snd row) = List.length frames_overlap /\
                       Forall (fun cell => cell <> None) (snd row))
           (rows df).
Proof.
  apply C2_merge_index_is_intersection.
  - discriminate.
  - intros c [<- | [<- | []]]; reflexivity.
Defined.

(** C3: the no-data error is raised exactly when nothing succeeded, as
    claimed, but success of some symbols does not guarantee a result: when
    the successful series share no timestamp the merged dataset is empty and
    the report after the merge raises an index error.  Here the archive has
    BTCUSDT on the first day only and ETHUSDT on the second day only (multi-day
    mode), or yesterday's BTCUSDT archive meets an old live candle of ETHUSDT
    (rolling window mode). *)
Theorem C3_partial_success_raises :
  successful_count
    (multi_day_fetch ex_offline bk_disjoint_days (Some ["BTCUSDT"; "ETHUSDT"])
                     (Some "2024-01-01") (Some "2024-01-02") None 10) = 2 /\
  get_crypto_data_multi_day ex_offline bk_disjoint_days
    (Some ["BTCUSDT"; "ETHUSDT"]) (Some "2024-01-01") (Some "2024-01-02") None 10
  = Raise (IndexError "index 0 is out of bounds for axis 0 with size 0") /\
  successful_symbols
    (rolling_fetch ex_offline bk_stale_live (Some ["BTCUSDT"; "ETHUSDT"])
                   "auto" 7 "1h" None 10) = ["BTCUSDT"; "ETHUSDT"] /\
  get_multiple_cryptos_data ex_offline bk_stale_live
    (Some ["BTCUSDT"; "ETHUSDT"]) "auto" 7 "1h" None 10
  = Raise (IndexError "index 0 is out of bounds for axis 0 with size 0").
Proof. repeat split; reflexivity. Qed.

(** C4, as stated, fails: the archive answers for no symbol, the live API
    answers a non-empty series for both symbols, at different hours; both
    symbols succeed, the merge of their series has no row, and no dataset is
    returned. *)
Lemma C4_counterexample :
  (forall s, In s ["BTCUSDT"; "ETHUSDT"] ->
             get_binance_vision_data bk_live_disjoint s None "1h" = None) /\
  (exists d, get_binance_klines bk_live_disjoint "BTCUSDT" "1h"
               (api_limit 7 "1h") = Some d /\ d <> []) /\
  successful_symbols
    (rolling_fetch ex_offline bk_live_disjoint (Some ["BTCUSDT"; "ETHUSDT"])
                   "auto" 7 "1h" None 10) = ["BTCUSDT"; "ETHUSDT"] /\
  (exists df,
     post_fetch_merge
       (all_data
          (rolling_fetch ex_offline bk_live_disjoint
             (Some ["BTCUSDT"; "ETHUSDT"]) "auto" 7 "1h" None 10)) = Ok df /\
     rows df = []) /\
  ~ exists df,
      get_multiple_cryptos_data ex_offline bk_live_disjoint
        (Some ["BTCUSDT"; "ETHUSDT"]) "auto" 7 "1h" None 10 = Ok df /\
      rows df <> [].
Proof.
  split; [|split; [|split; [|split]]].
  - intros s [<- | [<- | []]]; reflexivity.
  - eexists. split; [reflexivity | discriminate].
  - reflexivity.
  - eexists. split; reflexivity.
  - intros [df [H _]]. discriminate.
Qed.

(** C4, amended: in rolling window mode with source auto, when the archive
    answers none for every symbol and the live API answers a non-empty
    series for at least one, the no-data error is not raised; and when the
    series that succeeded have strictly increasing timestamps and share a
    timestamp at which each of them has a close other than NaN (as one
    series with such a close does), the aggregator returns a dataset with at
    least one row. *)
Theorem C4_failover_returns_dataset {V : Type} (ex : Exchange) (bk : Backends V)
    (symbols : option (list string)) (days_back : Z) (timeframe : string)
    (api_key : option string) (target_count : Z) :
  (forall s, In s (symbols_or_top ex symbols api_key target_count) ->
             get_binance_vision_data bk s None timeframe = None) ->
  (exists s d,
     In s (symbols_or_top ex symbols api_key target_count) /\
     get_binance_klines bk s timeframe (api_limit days_back timeframe) = Some d /\
     d <> []) ->
  get_multiple_cryptos_data ex bk symbols "auto" days_back timeframe api_key
                            target_count
    <> Raise (ValueError "No data was successfully fetched for any symbol") /\
  ((forall s d,
      In s (symbols_or_top ex symbols api_key target_count) ->
      get_binance_klines bk s timeframe (api_limit days_back timeframe) = Some d ->
      d <> [] -> increasing (frame_index d) = true) ->
   forall t,
     (forall s d,
        In s (symbols_or_top ex symbols api_key target_count) ->
        get_binance_klines bk s timeframe (api_limit days_back timeframe) = Some d ->
        d <> [] -> exists v, In (t, Some v) d) ->
     exists df,
       get_multiple_cryptos_data ex bk symbols "auto" days_back timeframe api_key
                                 target_count = Ok df /\
       rows df <> []).
Proof.
  intros Hvision [s [d [Hs [Hd Hne]]]].
  assert (Hfetch : forall s', In s' (symbols_or_top ex symbols api_key target_count) ->
             fetch_by_source bk "auto" days_back timeframe s' =
             get_binance_klines bk s' timeframe (api_limit days_back timeframe)).
  { intros s' Hs'. unfold fetch_by_source. cbn. now rewrite Hvision. }
  assert (Hcol : In s (map fst (flat_map (column bk "auto" days_back timeframe)
                          (symbols_or_top ex symbols api_key target_count)))).
  { apply column_keys. split; [assumption|]. unfold succeeds.
    rewrite Hfetch, Hd by assumption. destruct d; [congruence | reflexivity]. }
  assert (Hlive : forall c,
             In c (flat_map (column bk "auto" days_back timeframe)
                     (symbols_or_top ex symbols api_key target_count)) ->
             In (fst c) (symbols_or_top ex symbols api_key target_count) /\
             get_binance_klines bk (fst c) timeframe
               (api_limit days_back timeframe) = Some (snd c) /\
             snd c <> []).
  { intros c Hc. apply column_frames in Hc as [Hc1 [Hc2 Hc3]].
    rewrite Hfetch in Hc2 by assumption. repeat split; try assumption.
    intros Heq. rewrite Heq in Hc3. unfold len in Hc3. cbn in Hc3. lia. }
  unfold get_multiple_cryptos_data, rolling_fetch. rewrite roll_fold.
  cbn [all_data roll_init app].
  destruct (flat_map _ _) as [|c frames] eqn:Hframes; [contradiction|].
  split; [apply merged_not_no_data|].
  intros Hinc t Ht.
  destruct (@merge_increasing V (c :: frames)) as [df [Hok [_ [Hidx _]]]].
  - discriminate.
  - intros c' Hc'. destruct (Hlive c' Hc') as [H1 [H2 H3]].
    now apply (Hinc (fst c') (snd c')).
  - rewrite Hok. unfold report_and_return.
    assert (Hin : In t (index df)).
    { apply Hidx. intros c' Hc'. destruct (Hlive c' Hc') as [H1 [H2 H3]].
      now apply (Ht (fst c') (snd c')). }
    unfold index in *.
    destruct (rows df) as [|row rest] eqn:Hrows; [contradiction|].
    exists df. split; [reflexivity|]. rewrite Hrows. discriminate.
Qed.

Lemma C4_witness :
  get_multiple_cryptos_data ex_offline bk_live_only
    (Some ["BTCUSDT"; "NEWUSDT"; "ETHUSDT"]) "auto" 7 "1h" None 10
    <> Raise (ValueError "No data was successfully fetched for any symbol") /\
  ((forall s d,
      In s (symbols_or_top ex_offline (Some ["BTCUSDT"; "NEWUSDT"; "ETHUSDT"])
                           None 10) ->
      get_binance_klines bk_live_only s "1h" (api_limit 7 "1h") = Some d ->
      d <> [] -> increasing (frame_index d) = true) ->
   forall t,
     (forall s d,
        In s (symbols_or_top ex_offline (Some ["BTCUSDT"; "NEWUSDT"; "ETHUSDT"])
                             None 10) ->
        get_binance_klines bk_live_only s "1h" (api_limit 7 "1h") = Some d ->
        d <> [] -> exists v, In (t, Some v) d) ->
     exists df,
       get_multiple_cryptos_data ex_offline bk_live_only
         (Some ["BTCUSDT"; "NEWUSDT"; "ETHUSDT"]) "auto" 7 "1h" None 10 = Ok df /\
       rows df <> []).
Proof.
  apply C4_failover_returns_dataset.
  - intros s Hs. reflexivity.
  - exists "BTCUSDT". eexists. split; [now left|].
    split; [reflexivity | discriminate].
Defined.



(** C6: in multi-day mode the symbol list splits into the symbols whose
    fetching was started and the rest.  The calls issued are exactly the
    complete day loops of the started symbols, in order; the symbols
    recorded as successful are exactly the started ones for which some day of
    the range returned data; the success counter counts them; a symbol is
    started only while fewer than [target_count] earlier ones have succeeded,
    and a symbol is left unstarted only once [target_count] have. *)
Theorem C6_multi_day_success_and_early_exit {V : Type}
    (ex : Exchange) (bk : Backends V) (symbols : option (list string))
    (start_date end_date : option string) (api_key : option string)
    (target_count : Z) :
  exists started rest,
    symbols_or_top ex symbols api_key target_count = (started ++ rest)%list /\
    fetch_log (multi_day_fetch ex bk symbols start_date end_date api_key
                               target_count)
      = flat_map (day_calls (multi_day_dates bk start_date end_date)) started /\
    (forall s,
       In s (map fst (all_symbol_data
                        (multi_day_fetch ex bk symbols start_date end_date
                                         api_key target_count))) <->
       In s started /\
       has_data bk (multi_day_dates bk start_date end_date) s = true) /\
    successful_count (multi_day_fetch ex bk symbols start_date end_date api_key
                                      target_count)
      = successes bk (multi_day_dates bk start_date end_date) started /\
    (rest <> [] ->
     target_count
       <= successes bk (multi_day_dates bk start_date end_date) started) /\
    (forall pre s post,
       started = (pre ++ s :: post)%list ->
       successes bk (multi_day_dates bk start_date end_date) pre
         < target_count).
Proof.
  unfold multi_day_fetch.
  destruct (multi_day_loop_spec bk target_count
              (multi_day_dates bk start_date end_date)
              (symbols_or_top ex symbols api_key target_count) multi_init)
    as [started [rest [Hsplit [Hlog [Hcount [Hkeys [Hstop Hrun]]]]]]].
  exists started, rest. cbn [multi_init fetch_log successful_count
                             all_symbol_data map app] in *.
  repeat split; try assumption.
  - apply Hkeys in H. destruct H as [[] | [H _]]. exact H.
  - apply Hkeys in H. destruct H as [[] | [_ H]]. exact H.
  - intros [H1 H2]. apply Hkeys. now right.
Qed.

(** C7: when the registry contains the exact concatenation of the asset
    code with USDT, the resolver returns it, whatever else the registry
    contains: two registries that both contain it give the same answer. *)
Theorem C7_exact_match_wins (asset : string) (registry registry' : list string) :
  In (asset ++ "USDT") registry ->
  In (asset ++ "USDT") registry' ->
  find_valid_symbol asset registry = Some (asset ++ "USDT") /\
  find_valid_symbol asset registry' = find_valid_symbol asset registry.
Proof.
  intros H H'. now rewrite !find_valid_symbol_exact.
Qed.

Lemma C7_witness :
  find_valid_symbol "HYPE" registry_hype = Some ("HYPE" ++ "USDT") /\
  find_valid_symbol "HYPE" ["HYPEUSDT"] = find_valid_symbol "HYPE" registry_hype.
Proof.
  apply C7_exact_match_wins.
  - right. now left.
  - now left.
Defined.

(** C8: when the archive answers with a status other than 200 for the
    symbol, timeframe and date requested (yesterday when no date is given),
    the primary-backend call returns none. *)
Theorem C8_archive_failure_is_none {V : Type} (bk : Backends V)
    (symbol : string) (date : option string) (timeframe : string) :
  status_code
    (vision_archive bk symbol timeframe
       (match date with
        | None => days_ago bk 1
        | Some d => d
        end)) <> 200 ->
  get_binance_vision_data bk symbol date timeframe = None.
Proof.
  intros H. unfold get_binance_vision_data.
  apply Z.eqb_neq in H. now rewrite H.
Qed.

Lemma C8_witness :
  get_binance_vision_data bk_disjoint_days "BTCUSDT" (Some "2099-12-31") "1h"
  = None.
Proof.
  apply C8_archive_failure_is_none. discriminate.
Defined.

(** C9, as stated, fails: the multi-day entry point has no timeframe
    parameter, and a caller who wants four-hour candles gets calls for
    hourly ones. *)
Lemma C9_counterexample :
  ~ In "timeframe" get_crypto_data_multi_day_params /\
  exists call,
    In call (fetch_log
               (multi_day_fetch ex_offline bk_disjoint_days (Some ["BTCUSDT"])
                                (Some "2024-01-01") (Some "2024-01-02") None 10)) /\
    fetch_timeframe call <> "4h".
Proof.
  split.
  - intros H. repeat (destruct H as [H | H]; [discriminate|]). exact H.
  - eexists. split; [now left | discriminate].
Qed.

(** C9, amended: the multi-day entry point takes no timeframe; every
    per-day archive fetch it issues uses the fixed timeframe 1h. *)
Theorem C9_multi_day_timeframe_is_fixed {V : Type}
    (ex : Exchange) (bk : Backends V) (symbols : option (list string))
    (start_date end_date : option string) (api_key : option string)
    (target_count : Z) :
  ~ In "timeframe" get_crypto_data_multi_day_params /\
  Forall (fun call => fetch_timeframe call = "1h")
         (fetch_log (multi_day_fetch ex bk symbols start_date end_date api_key
                                     target_count)).
Proof.
  split.
  - intros H. repeat (destruct H as [H | H]; [discriminate|]). exact H.
  - destruct (multi_day_fetch_log ex bk symbols start_date end_date api_key
                target_count) as [started ->].
    apply Forall_forall. intros call Hin.
    apply in_flat_map in Hin as [s [_ Hin]].
    unfold day_calls in Hin. apply in_map_iff in Hin as [d [<- _]].
    reflexivity.
Qed.

(** C10: in rolling window mode a symbol whose fetch returns a series with
    no row is recorded as failed, is not recorded as successful, is not among
    the series collected and is not a column of the dataset returned; the
    successful symbols are exactly the symbols of the list whose fetch
    returns a series with at least one row. *)
Theorem C10_empty_series_is_failure {V : Type} (ex : Exchange) (bk : Backends V)
    (symbols : option (list string)) (source : string) (days_back : Z)
    (timeframe : string) (api_key : option string) (target_count : Z)
    (symbol : string) :
  In symbol (symbols_or_top ex symbols api_key target_count) ->
  fetch_by_source bk source days_back timeframe symbol = Some [] ->
  In symbol (failed_symbols
               (rolling_fetch ex bk symbols source days_back timeframe api_key
                              target_count)) /\
  ~ In symbol (successful_symbols
                 (rolling_fetch ex bk symbols source days_back timeframe
                                api_key target_count)) /\
  ~ In symbol (map fst (all_data
                          (rolling_fetch ex bk symbols source days_back
                                         timeframe api_key target_count))) /\
  (forall df,
     get_multiple_cryptos_data ex bk symbols source days_back timeframe api_key
                               target_count = Ok df ->
     ~ In symbol (columns df)) /\
  (forall s,
     In s (successful_symbols
             (rolling_fetch ex bk symbols source days_back timeframe api_key
                            target_count)) <->
     In s (symbols_or_top ex symbols api_key target_count) /\
     exists data,
       fetch_by_source bk source days_back timeframe s = Some data /\
       0 < len data).
Proof.
  intros Hin Hempty.
  assert (Hfail : succeeds bk source days_back timeframe symbol = false)
    by (unfold succeeds; now rewrite Hempty).
  assert (Hnocol : ~ In symbol
                     (map fst (all_data
                        (rolling_fetch ex bk symbols source days_back timeframe
                                       api_key target_count)))).
  { unfold rolling_fetch. rewrite roll_fold. cbn [all_data roll_init app].
    intros H. apply column_keys in H as [_ H]. congruence. }
  split; [|split; [|split; [|split]]].
  - unfold rolling_fetch. rewrite roll_fold. cbn [failed_symbols roll_init app].
    apply filter_In. split; [assumption | now rewrite Hfail].
  - unfold rolling_fetch. rewrite roll_fold.
    cbn [successful_symbols roll_init app].
    intros H. apply filter_In in H as [_ H]. congruence.
  - exact Hnocol.
  - intros df Hdf. apply rolling_returns_merge in Hdf as [Hdf _].
    apply merge_columns in Hdf. now rewrite Hdf.
  - intros s. unfold rolling_fetch. rewrite roll_fold.
    cbn [successful_symbols roll_init app].
    rewrite filter_In. unfold succeeds. split.
    + intros [Hs Hok]. split; [assumption|].
      destruct (fetch_by_source bk source days_back timeframe s) as [data|];
        [|discriminate].
      exists data. split; [reflexivity | lia].
    + intros [Hs [data [-> Hlen]]]. split; [assumption | lia].
Qed.

Lemma C10_witness :
  In "NEWUSDT" (failed_symbols
     (rolling_fetch ex_offline bk_live_only
        (Some ["BTCUSDT"; "NEWUSDT"; "ETHUSDT"]) "auto" 7 "1h" None 10)) /\
  ~ In "NEWUSDT" (successful_symbols
     (rolling_fetch ex_offline bk_live_only
        (Some ["BTCUSDT"; "NEWUSDT"; "ETHUSDT"]) "auto" 7 "1h" None 10)) /\
  ~ In "NEWUSDT" (map fst (all_data
     (rolling_fetch ex_offline bk_live_only
        (Some ["BTCUSDT"; "NEWUSDT"; "ETHUSDT"]) "auto" 7 "1h" None 10))) /\
  (forall df,
     get_multiple_cryptos_data ex_offline bk_live_only
       (Some ["BTCUSDT"; "NEWUSDT"; "ETHUSDT"]) "auto" 7 "1h" None 10 = Ok df ->
     ~ In "NEWUSDT" (columns df)) /\
  (forall s,
     In s (successful_symbols
       (rolling_fetch ex_offline bk_live_only
          (Some ["BTCUSDT"; "NEWUSDT"; "ETHUSDT"]) "auto" 7 "1h" None 10)) <->
     In s (symbols_or_top ex_offline (Some ["BTCUSDT"; "NEWUSDT"; "ETHUSDT"])
                          None 10) /\
     exists data,
       fetch_by_source bk_live_only "auto" 7 "1h" s = Some data /\
       0 < len data).
Proof.
  apply C10_empty_series_is_failure.
  - right. now left.
  - reflexivity.
Defined.

(* ================================================================== *)
(** * Part IV: further properties of the code *)
(* ================================================================== *)

(** ** Exchange Registry *)

Lemma set_add_In (x y : string) (s : list string) :
  In y (set_add x s) <-> y = x \/ In y s.
Proof.
  unfold set_add. destruct (mem x s) eqn:E.
  - apply mem_In in E. split; [auto | intros [-> | H]; assumption].
  - rewrite in_app_iff. cbn. intuition.
Qed.

Lemma set_add_NoDup (x : string) (s : list string) :
  NoDup s -> NoDup (set_add x s).
Proof.
  intros H. unfold set_add. destruct (mem x s) eqn:E; [assumption|].
  apply NoDup_snoc; [assumption | now apply mem_false].
Qed.

Lemma registry_fold (infos : list SymbolInfo) :
  forall acc,
    NoDup acc ->
    NoDup (fold_left
             (fun usdt_symbols symbol_info =>
                let symbol := info_symbol symbol_info in
                if andb (endswith symbol "USDT")
                        (String.eqb (info_status symbol_info) "TRADING")
                then set_add symbol usdt_symbols
                else usdt_symbols) infos acc) /\
    forall s,
      In s (fold_left
              (fun usdt_symbols symbol_info =>
                 let symbol := info_symbol symbol_info in
                 if andb (endswith symbol "USDT")
                         (String.eqb (info_status symbol_info) "TRADING")
                 then set_add symbol usdt_symbols
                 else usdt_symbols) infos acc) <->
      In s acc \/
      exists info, In info infos /\ info_symbol info = s /\
                   endswith s "USDT" = true /\ info_status info = "TRADING".
Proof.
  induction infos as [|info infos IH]; intros acc Hnd; cbn [fold_left].
  - split; [assumption|]. intros s. split; [auto | intros [H | [i [[] _]]]; exact H].
  - cbv zeta.
    destruct (endswith (info_symbol info) "USDT" &&
              String.eqb (info_status info) "TRADING") eqn:E.
    + apply andb_prop in E as [Eend Est]. apply String.eqb_eq in Est.
      destruct (IH (set_add (info_symbol info) acc) (set_add_NoDup _ Hnd))
        as [Hnd' Hin].
      split; [assumption|]. intros s. rewrite Hin, set_add_In. split.
      * intros [[-> | H] | [i [Hi Hrest]]]; [right | now left | right].
        -- exists info. cbn. auto.
        -- exists i. cbn. tauto.
      * intros [H | [i [[<- | Hi] [Hs [Hend Hst]]]]].
        -- left. now right.
        -- left. left. now symmetry.
        -- right. exists i. auto.
    + destruct (IH acc Hnd) as [Hnd' Hin].
      split; [assumption|]. intros s. rewrite Hin. split.
      * intros [H | [i [Hi Hrest]]]; [now left | right].
        exists i. cbn. tauto.
      * intros [H | [i [[<- | Hi] [Hs [Hend Hst]]]]].
        -- now left.
        -- subst s. rewrite Hend, Hst in E. discriminate.
        -- right. exists i. auto.
Qed.

Lemma get_all_binance_symbols_spec (ex : Exchange) :
  NoDup (get_all_binance_symbols ex) /\
  forall s,
    In s (get_all_binance_symbols ex) <->
    exchange_status_code (exchange_info ex) = 200 /\
    exists info,
      In info (exchange_symbols (exchange_info ex)) /\
      info_symbol info = s /\
      endswith s "USDT" = true /\
      info_status info = "TRADING".
Proof.
  unfold get_all_binance_symbols.
  destruct (exchange_status_code (exchange_info ex) =? 200) eqn:E; cbn [negb].
  - apply Z.eqb_eq in E.
    destruct (registry_fold (exchange_symbols (exchange_info ex)) (NoDup_nil _))
      as [Hnd Hin].
    split; [assumption|]. intros s. rewrite Hin. cbn. tauto.
  - apply Z.eqb_neq in E. split; [constructor|].
    intros s. cbn. tauto.
Qed.

(** X1: the registry has no repeated member; a symbol is in it exactly when
    the metadata request answered 200 and lists the symbol, ending in USDT,
    with status TRADING. *)
Theorem registry_members (ex : Exchange) :
  NoDup (get_all_binance_symbols ex) /\
  forall s,
    In s (get_all_binance_symbols ex) <->
    exchange_status_code (exchange_info ex) = 200 /\
    exists info,
      In info (exchange_symbols (exchange_info ex)) /\
      info_symbol info = s /\
      endswith s "USDT" = true /\
      info_status info = "TRADING".
Proof. apply get_all_binance_symbols_spec. Qed.

Example registry_scenario_mixed :
  get_all_binance_symbols ex_mixed_listing = ["BTCUSDT"; "ETHUSDT"].
Proof. reflexivity. Qed.

(** ** Symbol Resolver *)

Lemma first_valid_none (vs : list (option string)) (reg : list string) :
  first_valid vs reg = None <->
  forall v, In (Some v) vs -> truthy v = true -> ~ In v reg.
Proof.
  induction vs as [|[v|] vs IH]; cbn [first_valid truthy_opt].
  - split; [intros _ v [] | reflexivity].
  - destruct (truthy v && mem v reg) eqn:E.
    + split; [discriminate|]. intros H. apply andb_prop in E as [Et Em].
      apply mem_In in Em. exfalso. apply (H v); [now left | assumption..].
    + rewrite IH. split.
      * intros H w [Hw | Hw] Ht; [|now apply H].
        injection Hw as ->. rewrite Ht in E. cbn in E. now apply mem_false.
      * intros H w Hw. apply H. now right.
  - cbn [andb]. rewrite IH. split.
    + intros H w [Hw | Hw]; [discriminate | now apply H].
    + intros H w Hw. apply H. now right.
Qed.

Lemma first_valid_scan_head (l reg : list string) :
  (forall s, In s l -> truthy s = true /\ In s reg) ->
  first_valid (map Some l) reg = hd_error l.
Proof.
  destruct l as [|x l]; [reflexivity|]. intros H.
  destruct (H x (or_introl eq_refl)) as [Ht Hin]. apply mem_In in Hin.
  cbn. now rewrite Ht, Hin.
Qed.

Lemma scan_matches_valid (asset : string) (reg : list string) (s : string) :
  In s (scan_matches asset reg) -> truthy s = true /\ In s reg.
Proof.
  intros H. apply filter_In in H as [Hin H]. apply andb_prop in H as [_ H].
  split; [now apply endswith_truthy | assumption].
Qed.

(** X2: an answer of the resolver is a non-empty member of the registry, and
    it is the exact concatenation, the upper-cased concatenation, the alias
    of HYPE, or an entry that starts with the asset code and ends in USDT. *)
Theorem resolver_answer_is_listed (asset pair : string) (registry : list string) :
  find_valid_symbol asset registry = Some pair ->
  In pair registry /\
  pair <> "" /\
  (pair = asset ++ "USDT" \/
   pair = upper asset ++ "USDT" \/
   (asset = "HYPE" /\ pair = "HYPERUSDT") \/
   (startswith pair asset = true /\ endswith pair "USDT" = true)).
Proof.
  intros H. destruct (find_valid_symbol_cases _ _ H) as [Hin Hcases].
  split; [assumption|]. split; [|assumption].
  assert (Ht : truthy pair = true).
  { destruct Hcases as [-> | [-> | [[_ ->] | [_ Hend]]]];
      [apply truthy_app_quote | apply truthy_app_quote | reflexivity
      | now apply endswith_truthy]. }
  intros Heq. rewrite Heq in Ht. discriminate.
Qed.

Lemma resolver_answer_is_listed_witness :
  In "HYPERUSDT" registry_renamed /\
  "HYPERUSDT" <> "" /\
  ("HYPERUSDT" = "HYPE" ++ "USDT" \/
   "HYPERUSDT" = upper "HYPE" ++ "USDT" \/
   ("HYPE" = "HYPE" /\ "HYPERUSDT" = "HYPERUSDT") \/
   (startswith "HYPERUSDT" "HYPE" = true /\ endswith "HYPERUSDT" "USDT" = true)).
Proof.
  apply (@resolver_answer_is_listed "HYPE" "HYPERUSDT" registry_renamed).
  reflexivity.
Defined.

(** X3: the resolver answers none exactly when no registry entry is the
    upper-cased concatenation, the alias of HYPE, or starts with the asset
    code and ends in USDT; in particular for an empty registry. *)
Theorem resolver_none_iff (asset : string) (registry : list string) :
  find_valid_symbol asset registry = None <->
  forall s,
    In s registry ->
    s <> upper asset ++ "USDT" /\
    ~ (asset = "HYPE" /\ s = "HYPERUSDT") /\
    startswith s asset && endswith s "USDT" = false.
Proof.
  unfold find_valid_symbol.
  destruct (mem (asset ++ "USDT") registry) eqn:Hex.
  - split; [discriminate|]. intros H. apply mem_In in Hex.
    destruct (H _ Hex) as [_ [_ Hscan]].
    unfold startswith in Hscan. rewrite prefix_app, endswith_app in Hscan.
    discriminate.
  - rewrite first_valid_none. unfold variations. split.
    + intros H s Hs. split; [|split].
      * intros ->. apply (H (upper asset ++ "USDT")); try assumption.
        -- now left.
        -- apply truthy_app_quote.
      * intros [-> ->]. apply (H "HYPERUSDT"); try assumption.
        -- right. now left.
        -- reflexivity.
      * destruct (startswith s asset && endswith s "USDT") eqn:E; [|reflexivity].
        exfalso. apply (H s); try assumption.
        -- right. right. apply in_map, filter_In. auto.
        -- apply andb_prop in E as [_ E]. now apply endswith_truthy.
    + intros H v Hv Ht Hin. destruct (H v Hin) as [Hup [Hal Hscan]].
      destruct Hv as [Hv | [Hv | Hv]].
      * injection Hv as <-. now apply Hup.
      * destruct (String.eqb asset "HYPE") eqn:E; [|discriminate].
        apply String.eqb_eq in E. injection Hv as <-. now apply Hal.
      * apply in_map_iff in Hv as [w [Hw Hv]]. injection Hw as ->.
        apply filter_In in Hv as [_ Hv]. congruence.
Qed.

(** X4: when the exact concatenation is not listed and the upper-cased one
    is, the resolver answers the upper-cased one, before the alias and the
    prefix scan. *)
Theorem resolver_upper_case (asset : string) (registry : list string) :
  ~ In (asset ++ "USDT") registry ->
  In (upper asset ++ "USDT") registry ->
  find_valid_symbol asset registry = Some (upper asset ++ "USDT").
Proof.
  intros Hex Hup. unfold find_valid_symbol.
  apply mem_false in Hex. apply mem_In in Hup. rewrite Hex.
  unfold variations. cbn [app first_valid truthy_opt].
  now rewrite truthy_app_quote, Hup.
Qed.

Lemma resolver_upper_case_witness :
  find_valid_symbol "sol" ["SOLVUSDT"; "SOLUSDT"] = Some (upper "sol" ++ "USDT").
Proof.
  apply resolver_upper_case.
  - intros [H | [H | []]]; discriminate.
  - right. now left.
Defined.

(** X5: when HYPEUSDT is not listed and HYPERUSDT is, HYPE resolves to
    HYPERUSDT whatever the order of the registry and whatever other entries
    start with HYPE. *)
Theorem resolver_alias (registry : list string) :
  ~ In "HYPEUSDT" registry ->
  In "HYPERUSDT" registry ->
  find_valid_symbol "HYPE" registry = Some "HYPERUSDT".
Proof.
  intros Hex Hal. unfold find_valid_symbol.
  apply mem_false in Hex. apply mem_In in Hal.
  change ("HYPE" ++ "USDT") with "HYPEUSDT". rewrite Hex.
  unfold variations.
  change (upper "HYPE" ++ "USDT") with "HYPEUSDT".
  change (String.eqb "HYPE" "HYPE") with true.
  change ("HYPER" ++ "USDT") with "HYPERUSDT".
  cbn [List.app first_valid]. rewrite Hex, Hal. reflexivity.
Qed.

Lemma resolver_alias_witness :
  find_valid_symbol "HYPE" registry_renamed = Some "HYPERUSDT".
Proof.
  apply resolver_alias.
  - intros H. repeat (destruct H as [H | H]; [discriminate|]). exact H.
  - right. right. now left.
Defined.

(** X6: when neither the exact nor the upper-cased concatenation is listed
    and the alias does not apply, the resolver answers the first registry
    entry, in iteration order, that starts with the asset code and ends in
    USDT. *)
Theorem resolver_prefix_scan (asset : string) (registry : list string) :
  ~ In (asset ++ "USDT") registry ->
  ~ In (upper asset ++ "USDT") registry ->
  (asset <> "HYPE" \/ ~ In "HYPERUSDT" registry) ->
  find_valid_symbol asset registry = hd_error (scan_matches asset registry).
Proof.
  intros Hex Hup Hal. unfold find_valid_symbol.
  apply mem_false in Hex. apply mem_false in Hup. rewrite Hex.
  unfold variations. cbn [app first_valid truthy_opt].
  rewrite Hup, andb_false_r.
  assert (Hscan : first_valid (map Some (scan_matches asset registry)) registry
                  = hd_error (scan_matches asset registry))
    by (apply first_valid_scan_head; intros s; apply scan_matches_valid).
  destruct (String.eqb asset "HYPE") eqn:E.
  - apply String.eqb_eq in E. destruct Hal as [Hal | Hal]; [congruence|].
    apply mem_false in Hal. cbn [truthy_opt].
    change ("HYPER" ++ "USDT") with "HYPERUSDT". rewrite Hal, andb_false_r.
    exact Hscan.
  - cbn [andb]. exact Hscan.
Qed.

Lemma resolver_prefix_scan_witness :
  find_valid_symbol "WBT" ["ETHUSDT"; "WBTCUSDT"; "WBTXUSDT"]
  = hd_error (scan_matches "WBT" ["ETHUSDT"; "WBTCUSDT"; "WBTXUSDT"]).
Proof.
  apply resolver_prefix_scan.
  - intros H. repeat (destruct H as [H | H]; [discriminate|]). exact H.
  - intros H. repeat (destruct H as [H | H]; [discriminate|]). exact H.
  - left. discriminate.
Defined.

(** ** Ranked Candidate Selector *)

(** X7: the selector returns the first [target_count] entries of one list:
    the pairs the ranked, non-filtered asset codes resolve to, in rank order
    (none without a key, a registry and a ranking answered with 200),
    followed by the pairs the fallback codes resolve to or, without a
    registry, their concatenations with USDT. *)
Theorem selector_takes_first_candidates (ex : Exchange)
    (api_key : option string) (target_count max_fetch : Z) :
  get_top10_symbols ex api_key target_count max_fetch =
  firstn (Z.to_nat target_count)
         (ranked_candidates ex api_key max_fetch ++
          fallback_candidates (get_all_binance_symbols ex)).
Proof. apply get_top10_symbols_firstn. Qed.

(** X8: when a registry was obtained, every symbol the selector returns is a
    member of it. *)
Theorem selector_output_is_listed (ex : Exchange) (api_key : option string)
    (target_count max_fetch : Z) :
  get_all_binance_symbols ex <> [] ->
  Forall (fun pair => In pair (get_all_binance_symbols ex))
         (get_top10_symbols ex api_key target_count max_fetch).
Proof.
  intros Hreg. eapply Forall_impl; [|apply get_top10_symbols_provenance].
  intros pair [asset [_ [[Hnil _] | Hfind]]]; [contradiction|].
  now apply find_valid_symbol_cases in Hfind.
Qed.

Lemma selector_output_is_listed_witness :
  Forall (fun pair => In pair (get_all_binance_symbols ex_wbt))
         (get_top10_symbols ex_wbt None 3 13).
Proof.
  apply selector_output_is_listed. discriminate.
Defined.

(** X9: without a registry the selector returns the first [target_count]
    fallback codes, each concatenated with USDT, whatever the key and the
    ranking provider. *)
Theorem selector_without_registry (ex : Exchange) (api_key : option string)
    (target_count max_fetch : Z) :
  get_all_binance_symbols ex = [] ->
  get_top10_symbols ex api_key target_count max_fetch =
  map (fun base => base ++ "USDT")
      (firstn (Z.to_nat target_count) fallback_bases).
Proof.
  intros Hreg. rewrite get_top10_symbols_firstn.
  unfold ranked_candidates, fallback_candidates. rewrite Hreg.
  cbn [len List.length Z.of_nat Z.eqb negb andb app].
  rewrite andb_false_r. cbn [app]. apply firstn_map.
Qed.

Lemma selector_without_registry_witness :
  get_top10_symbols ex_offline (Some "key") 4 14 =
  map (fun base => base ++ "USDT") (firstn (Z.to_nat 4) fallback_bases).
Proof.
  apply selector_without_registry. reflexivity.
Defined.

(** X10: every symbol the selector returns ends in USDT. *)
Theorem selector_output_is_usdt_pair (ex : Exchange) (api_key : option string)
    (target_count max_fetch : Z) :
  Forall (fun pair => endswith pair "USDT" = true)
         (get_top10_symbols ex api_key target_count max_fetch).
Proof.
  eapply Forall_impl; [|apply get_top10_symbols_provenance].
  intros pair [asset [_ [[_ ->] | Hfind]]]; [apply endswith_app|].
  apply find_valid_symbol_cases in Hfind as [Hin _].
  apply (proj2 (get_all_binance_symbols_spec ex)) in Hin.
  destruct Hin as [_ [info [_ [_ [Hend _]]]]]. exact Hend.
Qed.

(** ** Aggregator: the merge, cell by cell *)

Section MergeCells.

Context {V : Type}.

Lemma own_column_cells (f g : Frame V) :
  incl g f -> Forall2 (cell_of f) (map fst g) (map snd g).
Proof.
  induction g as [|[t c] g IH]; intros Hincl; cbn [map]; constructor.
  - right. apply Hincl. now left.
  - apply IH. intros x Hx. apply Hincl. now right.
Qed.

Lemma reindex_cells (labels : list Z) (f : Frame V) (col : list (option V)) :
  reindex labels f = Ok col -> Forall2 (cell_of f) labels col.
Proof.
  unfold reindex. destruct (index_equals labels (frame_index f)) eqn:E.
  - apply index_equals_eq in E. subst labels. intros H. injection H as <-.
    apply own_column_cells, incl_refl.
  - destruct (has_duplicates (frame_index f)); [discriminate|].
    intros H. injection H as <-. clear E.
    induction labels as [|t labels IH]; cbn [map]; constructor; [|exact IH].
    destruct (lookup t f) as [v|] eqn:El; [right | now left].
    now apply lookup_Some_In.
Qed.

Lemma reindex_all_cells (labels : list Z) (fs : list (Frame V)) :
  forall cols,
    reindex_all labels fs = Ok cols ->
    Forall2 (fun f col => Forall2 (cell_of f) labels col) fs cols.
Proof.
  induction fs as [|f fs IH]; intros cols; cbn [reindex_all].
  - intros H. injection H as <-. constructor.
  - destruct (reindex labels f) as [col|] eqn:E; [|discriminate].
    destruct (reindex_all labels fs) as [cols'|]; [|discriminate].
    intros H. injection H as <-. constructor; [now apply reindex_cells|].
    now apply IH.
Qed.

Lemma build_rows_cells (labels : list Z) :
  forall (fs : list (Frame V)) cols,
    Forall2 (fun f col => Forall2 (cell_of f) labels col) fs cols ->
    Forall (fun row => Forall2 (fun f cell => cell_of f (fst row) cell)
                               fs (snd row))
           (build_rows labels cols).
Proof.
  induction labels as [|t labels IH]; intros fs cols H; cbn [build_rows];
    constructor.
  - cbn [fst snd]. induction H as [|f col fs cols Hcol _ IHF]; cbn [map];
      constructor; [|exact IHF].
    inversion Hcol; subst. assumption.
  - apply IH. induction H as [|f col fs cols Hcol _ IHF]; cbn [map];
      constructor; [|exact IHF].
    inversion Hcol; subst. assumption.
Qed.

Lemma present_cells (fs : list (Frame V)) (t : Z) (cells : list (option V)) :
  Forall2 (fun f cell => cell_of f t cell) fs cells ->
  forallb is_some cells = true ->
  Forall2 (fun f cell => exists v, cell = Some v /\ In (t, Some v) f) fs cells.
Proof.
  induction 1 as [|f cell fs cells Hcell _ IH]; cbn [forallb]; [constructor|].
  intros H. apply andb_prop in H as [Hsome Hrest].
  constructor; [|now apply IH].
  destruct cell as [v|]; [|discriminate]. exists v. split; [reflexivity|].
  destruct Hcell as [Hnone | Hin]; [discriminate | assumption].
Qed.

Lemma Forall2_map_frames (P : Frame V -> option V -> Prop)
    (frames : list (string * Frame V)) (cells : list (option V)) :
  Forall2 P (map snd frames) cells ->
  Forall2 (fun c cell => P (snd c) cell) frames cells.
Proof.
  revert cells. induction frames as [|c frames IH]; intros cells H;
    inversion H; subst; constructor; [assumption | now apply IH].
Qed.

End MergeCells.

(** X11: in every row of the merged dataset, the cell of each column is a
    close its series has at the row's timestamp. *)
Theorem merge_cells_come_from_series {V : Type}
    (frames : list (string * Frame V)) (df : Table V) :
  post_fetch_merge frames = Ok df ->
  Forall (fun row =>
            Forall2 (fun c cell =>
                       exists v, cell = Some v /\ In (fst row, Some v) (snd c))
                    frames (snd row))
         (rows df).
Proof.
  unfold post_fetch_merge, concat_axis1.
  destruct (reindex_all _ (map snd frames)) as [cols|] eqn:E; [|discriminate].
  intros H. injection H as <-. cbn [dropna rows].
  apply reindex_all_cells, build_rows_cells in E.
  rewrite Forall_forall in E.
  apply Forall_forall. intros row Hrow. apply filter_In in Hrow as [Hin Hok].
  apply Forall2_map_frames with (P := fun f cell =>
    exists v, cell = Some v /\ In (fst row, Some v) f).
  apply present_cells; [now apply E | assumption].
Qed.

Lemma merge_cells_come_from_series_witness :
  Forall (fun row =>
            Forall2 (fun c cell =>
                       exists v, cell = Some v /\ In (fst row, Some v) (snd c))
                    frames_blank_close (snd row))
         (rows {| columns := ["BTCUSDT"; "ETHUSDT"];
                  rows := [(1704067200000, [Some 4200000; Some 230000])] |}).
Proof.
  apply (@merge_cells_come_from_series Z frames_blank_close). reflexivity.
Defined.

(** ** Aggregator: rolling window mode *)

Lemma column_names {V : Type} (bk : Backends V) (source : string)
    (days_back : Z) (timeframe : string) (symbols : list string) :
  map fst (flat_map (column bk source days_back timeframe) symbols) =
  filter (succeeds bk source days_back timeframe) symbols.
Proof.
  induction symbols as [|s l IH]; cbn [flat_map filter]; [reflexivity|].
  rewrite map_app, IH.
  assert (Hs : succeeds bk source days_back timeframe s =
               match fetch_by_source bk source days_back timeframe s with
               | Some d => len d >? 0
               | None => false
               end) by reflexivity.
  rewrite Hs. unfold column.
  destruct (fetch_by_source bk source days_back timeframe s) as [d|];
    [destruct (len d >? 0)|]; reflexivity.
Qed.

Lemma filter_partition_length {A : Type} (p : A -> bool) (xs : list A) :
  len (filter p xs) + len (filter (fun x => negb (p x)) xs) = len xs.
Proof.
  unfold len. induction xs as [|x xs IH]; cbn [filter]; [reflexivity|].
  destruct (p x); cbn [negb List.length]; lia.
Qed.

(** X12: in rolling window mode the successful and the failed symbols are the
    symbols of the list whose fetch yields, respectively does not yield, a
    series with a row, each in list order; together they account for every
    symbol; and the columns of a returned dataset are the successful symbols
    in that order. *)
Theorem rolling_bookkeeping {V : Type} (ex : Exchange) (bk : Backends V)
    (symbols : option (list string)) (source : string) (days_back : Z)
    (timeframe : string) (api_key : option string) (target_count : Z) :
  successful_symbols
    (rolling_fetch ex bk symbols source days_back timeframe api_key target_count)
  = filter (succeeds bk source days_back timeframe)
           (symbols_or_top ex symbols api_key target_count) /\
  failed_symbols
    (rolling_fetch ex bk symbols source days_back timeframe api_key target_count)
  = filter (fun s => negb (succeeds bk source days_back timeframe s))
           (symbols_or_top ex symbols api_key target_count) /\
  len (successful_symbols
         (rolling_fetch ex bk symbols source days_back timeframe api_key
                        target_count)) +
  len (failed_symbols
         (rolling_fetch ex bk symbols source days_back timeframe api_key
                        target_count))
  = len (symbols_or_top ex symbols api_key target_count) /\
  (forall df,
     get_multiple_cryptos_data ex bk symbols source days_back timeframe api_key
                               target_count = Ok df ->
     columns df =
     successful_symbols
       (rolling_fetch ex bk symbols source days_back timeframe api_key
                      target_count)).
Proof.
  split; [|split; [|split]].
  - unfold rolling_fetch. now rewrite roll_fold.
  - unfold rolling_fetch. now rewrite roll_fold.
  - unfold rolling_fetch. rewrite roll_fold.
    cbn [successful_symbols failed_symbols roll_init app].
    apply filter_partition_length.
  - intros df H. apply rolling_returns_merge in H as [H _].
    apply merge_columns in H. rewrite H.
    unfold rolling_fetch. rewrite roll_fold.
    cbn [all_data successful_symbols roll_init app].
    apply column_names.
Qed.

(** X13: for a source other than auto, vision and api no backend is asked:
    every symbol is recorded as failed and the no-data error is raised. *)
Theorem rolling_unknown_source {V : Type} (ex : Exchange) (bk : Backends V)
    (symbols : option (list string)) (source : string) (days_back : Z)
    (timeframe : string) (api_key : option string) (target_count : Z) :
  source <> "auto" -> source <> "vision" -> source <> "api" ->
  failed_symbols
    (rolling_fetch ex bk symbols source days_back timeframe api_key target_count)
  = symbols_or_top ex symbols api_key target_count /\
  get_multiple_cryptos_data ex bk symbols source days_back timeframe api_key
                            target_count
  = Raise (ValueError "No data was successfully fetched for any symbol").
Proof.
  intros Hauto Hvision Hapi.
  assert (Hnone : forall s, succeeds bk source days_back timeframe s = false).
  { intros s. unfold succeeds, fetch_by_source.
    apply String.eqb_neq in Hauto, Hvision, Hapi.
    now rewrite Hauto, Hvision, Hapi. }
  split.
  - unfold rolling_fetch. rewrite roll_fold. cbn [failed_symbols roll_init app].
    apply filter_all. intros s _. now rewrite Hnone.
  - apply rolling_no_data_iff. unfold rolling_fetch. rewrite roll_fold.
    cbn [successful_symbols roll_init app].
    apply filter_none. intros s _. apply Hnone.
Qed.

Lemma rolling_unknown_source_witness :
  failed_symbols
    (rolling_fetch ex_offline bk_live_only (Some ["BTCUSDT"; "ETHUSDT"])
                   "archive" 7 "1h" None 10)
  = symbols_or_top ex_offline (Some ["BTCUSDT"; "ETHUSDT"]) None 10 /\
  get_multiple_cryptos_data ex_offline bk_live_only (Some ["BTCUSDT"; "ETHUSDT"])
                            "archive" 7 "1h" None 10
  = Raise (ValueError "No data was successfully fetched for any symbol").
Proof.
  apply rolling_unknown_source; discriminate.
Defined.

Lemma report_outcome {V : Type} (frames : list (string * Frame V)) :
  frames <> [] ->
  (forall c, In c frames -> increasing (frame_index (snd c)) = true) ->
  (match post_fetch_merge frames with
   | Raise e => Raise e
   | Ok df => report_and_return df
   end = Raise (IndexError "index 0 is out of bounds for axis 0 with size 0") <->
   forall t, ~ forall c, In c frames -> exists v, In (t, Some v) (snd c)) /\
  (forall df,
     match post_fetch_merge frames with
     | Raise e => Raise e
     | Ok df => report_and_return df
     end = Ok df <->
     post_fetch_merge frames = Ok df /\
     exists t, forall c, In c frames -> exists v, In (t, Some v) (snd c)).
Proof.
  intros Hne Hinc.
  destruct (merge_increasing Hne Hinc) as [df0 [Hok [_ [Hidx _]]]].
  rewrite Hok. unfold report_and_return.
  destruct (index df0) as [|t0 ts] eqn:E.
  - split.
    + split; [|reflexivity]. intros _ t H. now apply Hidx in H.
    + intros df. split; [discriminate|]. intros [_ [t H]]. now apply Hidx in H.
  - split.
    + split; [discriminate|]. intros H. exfalso. apply (H t0), Hidx. now left.
    + intros df. split.
      * intros H. injection H as <-. split; [reflexivity|].
        exists t0. apply Hidx. now left.
      * intros [H _]. congruence.
Qed.

(** X14: the outcomes of rolling window mode when the series collected have
    strictly increasing timestamps.  It raises the no-data error exactly
    when no series was collected; it raises an index error exactly when
    series were collected and at no timestamp all of them have a close other
    than NaN; it returns exactly when there is such a timestamp, and then
    returns the merge of the series. *)
Theorem rolling_outcomes {V : Type} (ex : Exchange) (bk : Backends V)
    (symbols : option (list string)) (source : string) (days_back : Z)
    (timeframe : string) (api_key : option string) (target_count : Z) :
  (forall c,
     In c (all_data (rolling_fetch ex bk symbols source days_back timeframe
                                   api_key target_count)) ->
     increasing (frame_index (snd c)) = true) ->
  (get_multiple_cryptos_data ex bk symbols source days_back timeframe api_key
                             target_count
   = Raise (ValueError "No data was successfully fetched for any symbol") <->
   all_data (rolling_fetch ex bk symbols source days_back timeframe api_key
                           target_count) = []) /\
  (get_multiple_cryptos_data ex bk symbols source days_back timeframe api_key
                             target_count
   = Raise (IndexError "index 0 is out of bounds for axis 0 with size 0") <->
   all_data (rolling_fetch ex bk symbols source days_back timeframe api_key
                           target_count) <> [] /\
   forall t,
     ~ forall c,
         In c (all_data (rolling_fetch ex bk symbols source days_back timeframe
                                       api_key target_count)) ->
         exists v, In (t, Some v) (snd c)) /\
  (forall df,
     get_multiple_cryptos_data ex bk symbols source days_back timeframe api_key
                               target_count = Ok df <->
     all_data (rolling_fetch ex bk symbols source days_back timeframe api_key
                             target_count) <> [] /\
     post_fetch_merge
       (all_data (rolling_fetch ex bk symbols source days_back timeframe
                                api_key target_count)) = Ok df /\
     exists t,
       forall c,
         In c (all_data (rolling_fetch ex bk symbols source days_back timeframe
                                       api_key target_count)) ->
         exists v, In (t, Some v) (snd c)).
Proof.
  unfold get_multiple_cryptos_data.
  destruct (all_data _) as [|c frames]; intros Hinc.
  - split; [|split].
    + tauto.
    + split; [discriminate | now intros [H _]].
    + intros df. split; [discriminate | now intros [H _]].
  - destruct (@report_outcome V (c :: frames)) as [Hidx Hok];
      [discriminate | assumption |].
    split; [|split].
    + split; [intros H; now apply merged_not_no_data in H | discriminate].
    + rewrite Hidx. split; [intros H; split; [discriminate | exact H] | tauto].
    + intros df. rewrite Hok.
      split; [intros H; split; [discriminate | exact H] | tauto].
Qed.

Lemma rolling_outcomes_witness :
  (get_multiple_cryptos_data ex_offline bk_live_disjoint
     (Some ["BTCUSDT"; "ETHUSDT"]) "auto" 7 "1h" None 10
   = Raise (ValueError "No data was successfully fetched for any symbol") <->
   all_data (rolling_fetch ex_offline bk_live_disjoint
               (Some ["BTCUSDT"; "ETHUSDT"]) "auto" 7 "1h" None 10) = []) /\
  (get_multiple_cryptos_data ex_offline bk_live_disjoint
     (Some ["BTCUSDT"; "ETHUSDT"]) "auto" 7 "1h" None 10
   = Raise (IndexError "index 0 is out of bounds for axis 0 with size 0") <->
   all_data (rolling_fetch ex_offline bk_live_disjoint
               (Some ["BTCUSDT"; "ETHUSDT"]) "auto" 7 "1h" None 10) <> [] /\
   forall t,
     ~ forall c,
         In c (all_data (rolling_fetch ex_offline bk_live_disjoint
                           (Some ["BTCUSDT"; "ETHUSDT"]) "auto" 7 "1h" None 10)) ->
         exists v, In (t, Some v) (snd c)) /\
  (forall df,
     get_multiple_cryptos_data ex_offline bk_live_disjoint
       (Some ["BTCUSDT"; "ETHUSDT"]) "auto" 7 "1h" None 10 = Ok df <->
     all_data (rolling_fetch ex_offline bk_live_disjoint
                 (Some ["BTCUSDT"; "ETHUSDT"]) "auto" 7 "1h" None 10) <> [] /\
     post_fetch_merge
       (all_data (rolling_fetch ex_offline bk_live_disjoint
                    (Some ["BTCUSDT"; "ETHUSDT"]) "auto" 7 "1h" None 10)) = Ok df /\
     exists t,
       forall c,
         In c (all_data (rolling_fetch ex_offline bk_live_disjoint
                           (Some ["BTCUSDT"; "ETHUSDT"]) "auto" 7 "1h" None 10)) ->
         exists v, In (t, Some v) (snd c)).
Proof.
  apply rolling_outcomes.
  intros c Hc. vm_compute in Hc. destruct Hc as [<- | [<- | []]]; reflexivity.
Defined.

(** X15: the outcomes of multi-day mode when the series recorded have
    strictly increasing timestamps, as for rolling window mode. *)
Theorem multi_day_outcomes {V : Type} (ex : Exchange) (bk : Backends V)
    (symbols : option (list string)) (start_date end_date : option string)
    (api_key : option string) (target_count : Z) :
  (forall c,
     In c (all_symbol_data (multi_day_fetch ex bk symbols start_date end_date
                                            api_key target_count)) ->
     increasing (frame_index (snd c)) = true) ->
  (get_crypto_data_multi_day ex bk symbols start_date end_date api_key
                             target_count
   = Raise (ValueError "No data was successfully fetched") <->
   all_symbol_data (multi_day_fetch ex bk symbols start_date end_date api_key
                                    target_count) = []) /\
  (get_crypto_data_multi_day ex bk symbols start_date end_date api_key
                             target_count
   = Raise (IndexError "index 0 is out of bounds for axis 0 with size 0") <->
   all_symbol_data (multi_day_fetch ex bk symbols start_date end_date api_key
                                    target_count) <> [] /\
   forall t,
     ~ forall c,
         In c (all_symbol_data (multi_day_fetch ex bk symbols start_date
                                                end_date api_key target_count)) ->
         exists v, In (t, Some v) (snd c)) /\
  (forall df,
     get_crypto_data_multi_day ex bk symbols start_date end_date api_key
                               target_count = Ok df <->
     all_symbol_data (multi_day_fetch ex bk symbols start_date end_date api_key
                                      target_count) <> [] /\
     post_fetch_merge
       (all_symbol_data (multi_day_fetch ex bk symbols start_date end_date
                                         api_key target_count)) = Ok df /\
     exists t,
       forall c,
         In c (all_symbol_data (multi_day_fetch ex bk symbols start_date
                                                end_date api_key target_count)) ->
         exists v, In (t, Some v) (snd c)).
Proof.
  unfold get_crypto_data_multi_day.
  destruct (all_symbol_data _) as [|c frames]; intros Hinc.
  - split; [|split].
    + tauto.
    + split; [discriminate | now intros [H _]].
    + intros df. split; [discriminate | now intros [H _]].
  - destruct (@report_outcome V (c :: frames)) as [Hidx Hok];
      [discriminate | assumption |].
    split; [|split].
    + split; [intros H; now apply merged_not_no_data in H | discriminate].
    + rewrite Hidx. split; [intros H; split; [discriminate | exact H] | tauto].
    + intros df. rewrite Hok.
      split; [intros H; split; [discriminate | exact H] | tauto].
Qed.

Lemma multi_day_outcomes_witness :
  (get_crypto_data_multi_day ex_offline bk_disjoint_days
     (Some ["BTCUSDT"; "ETHUSDT"]) (Some "2024-01-01") (Some "2024-01-02") None 10
   = Raise (ValueError "No data was successfully fetched") <->
   all_symbol_data (multi_day_fetch ex_offline bk_disjoint_days
                      (Some ["BTCUSDT"; "ETHUSDT"]) (Some "2024-01-01")
                      (Some "2024-01-02") None 10) = []) /\
  (get_crypto_data_multi_day ex_offline bk_disjoint_days
     (Some ["BTCUSDT"; "ETHUSDT"]) (Some "2024-01-01") (Some "2024-01-02") None 10
   = Raise (IndexError "index 0 is out of bounds for axis 0 with size 0") <->
   all_symbol_data (multi_day_fetch ex_offline bk_disjoint_days
                      (Some ["BTCUSDT"; "ETHUSDT"]) (Some "2024-01-01")
                      (Some "2024-01-02") None 10) <> [] /\
   forall t,
     ~ forall c,
         In c (all_symbol_data (multi_day_fetch ex_offline bk_disjoint_days
                                  (Some ["BTCUSDT"; "ETHUSDT"])
                                  (Some "2024-01-01") (Some "2024-01-02")
                                  None 10)) ->
         exists v, In (t, Some v) (snd c)) /\
  (forall df,
     get_crypto_data_multi_day ex_offline bk_disjoint_days
       (Some ["BTCUSDT"; "ETHUSDT"]) (Some "2024-01-01") (Some "2024-01-02")
       None 10 = Ok df <->
     all_symbol_data (multi_day_fetch ex_offline bk_disjoint_days
                        (Some ["BTCUSDT"; "ETHUSDT"]) (Some "2024-01-01")
                        (Some "2024-01-02") None 10) <> [] /\
     post_fetch_merge
       (all_symbol_data (multi_day_fetch ex_offline bk_disjoint_days
                           (Some ["BTCUSDT"; "ETHUSDT"]) (Some "2024-01-01")
                           (Some "2024-01-02") None 10)) = Ok df /\
     exists t,
       forall c,
         In c (all_symbol_data (multi_day_fetch ex_offline bk_disjoint_days
                                  (Some ["BTCUSDT"; "ETHUSDT"])
                                  (Some "2024-01-01") (Some "2024-01-02")
                                  None 10)) ->
         exists v, In (t, Some v) (snd c)).
Proof.
  apply multi_day_outcomes.
  intros c Hc. vm_compute in Hc. destruct Hc as [<- | [<- | []]]; reflexivity.
Defined.

(** ** Aggregator: multi-day mode *)

Section MultiDayInvariants.

Context {V : Type}.
Variables (bk : Backends V) (target_count : Z) (dates : list string).

Lemma dict_set_names (k : string) (v : Frame V) (d : list (string * Frame V)) :
  map fst (dict_set k v d) =
  if mem k (map fst d) then map fst d else (map fst d ++ [k])%list.
Proof.
  induction d as [|[k0 v0] d IH]; cbn [dict_set map fst]; [reflexivity|].
  unfold mem. cbn [existsb]. fold (mem k (map fst d)).
  rewrite (String.eqb_sym k k0).
  destruct (String.eqb k0 k) eqn:E; cbn [orb map fst].
  - apply String.eqb_eq in E. now subst.
  - rewrite IH. now destruct (mem k (map fst d)).
Qed.

Lemma dict_set_entries (k : string) (v : Frame V) (d : list (string * Frame V))
    (c : string * Frame V) :
  In c (dict_set k v d) -> c = (k, v) \/ In c d.
Proof.
  induction d as [|[k0 v0] d IH]; cbn [dict_set].
  - intros [<- | []]. now left.
  - destruct (String.eqb k0 k); intros [<- | H]; cbn; auto.
    destruct (IH H); auto.
Qed.

Lemma dict_set_len (k : string) (v : Frame V) (d : list (string * Frame V)) :
  len (dict_set k v d) <= len d + 1.
Proof.
  unfold len. rewrite <- (length_map fst (dict_set k v d)), dict_set_names.
  destruct (mem k (map fst d));
    rewrite ?List.length_app, !length_map; cbn [List.length]; lia.
Qed.

Lemma symbol_step_recorded_ok (st : MultiState V) (symbol : string) :
  recorded_ok bk dates st ->
  recorded_ok bk dates (symbol_step bk dates st symbol).
Proof.
  intros [Hnd [Hlen Hval]]. unfold symbol_step. rewrite day_loop_spec.
  destruct (day_frames bk dates symbol) as [|df dfs] eqn:E;
    [now repeat split|].
  unfold recorded_ok. cbn [all_symbol_data successful_count].
  split; [|split].
  - rewrite dict_set_names. destruct (mem symbol _) eqn:Hm; [assumption|].
    apply NoDup_snoc; [assumption | now apply mem_false].
  - pose proof (dict_set_len symbol (List.concat (df :: dfs))
                             (all_symbol_data st)). lia.
  - intros c Hc. apply dict_set_entries in Hc as [-> | Hc]; [|now apply Hval].
    cbn [fst snd]. now rewrite E.
Qed.

Lemma multi_day_loop_recorded_ok (symbols : list string) :
  forall st,
    recorded_ok bk dates st ->
    recorded_ok bk dates (multi_day_loop bk target_count dates symbols st).
Proof.
  induction symbols as [|s symbols IH]; intros st Hst; cbn [multi_day_loop];
    [assumption|].
  destruct (successful_count st >=? target_count); [assumption|].
  now apply IH, symbol_step_recorded_ok.
Qed.

Lemma last_or_nil {A : Type} (l : list A) :
  l = [] \/ exists pre x, l = (pre ++ [x])%list.
Proof. induction l using rev_ind; [now left | right; eauto]. Qed.

Lemma successes_app (xs ys : list string) :
  successes bk dates (xs ++ ys) = successes bk dates xs + successes bk dates ys.
Proof. unfold successes. now rewrite filter_app, len_app. Qed.

Lemma successes_bounds (xs : list string) :
  0 <= successes bk dates xs <= len xs.
Proof.
  unfold successes, len. pose proof (filter_length_le (has_data bk dates) xs).
  lia.
Qed.

Lemma multi_day_loop_count (symbols : list string) :
  successful_count (multi_day_loop bk target_count dates symbols multi_init)
    <= Z.max 0 target_count.
Proof.
  destruct (multi_day_loop_spec bk target_count dates symbols multi_init)
    as [started [rest [_ [_ [Hcount [_ [_ Hrun]]]]]]].
  rewrite Hcount. cbn [multi_init successful_count] in *.
  destruct (last_or_nil started) as [-> | [pre [s ->]]].
  - unfold successes, len. cbn. lia.
  - specialize (Hrun pre s [] eq_refl). rewrite successes_app.
    pose proof (successes_bounds [s]) as Hs. unfold len in Hs. cbn in Hs. lia.
Qed.

Lemma day_calls_len (started : list string) :
  len (flat_map (day_calls dates) started) = len started * len dates.
Proof.
  unfold len. induction started as [|s l IH]; [reflexivity|].
  cbn [flat_map]. rewrite List.length_app. unfold day_calls at 1.
  rewrite length_map. cbn [List.length].
  rewrite Nat2Z.inj_add, IH, Nat2Z.inj_succ. lia.
Qed.

Lemma multi_day_loop_calls (symbols : list string) :
  Forall (fun call => In (fetch_symbol call) symbols /\
                      In (fetch_date call) dates)
         (fetch_log (multi_day_loop bk target_count dates symbols multi_init)) /\
  len (fetch_log (multi_day_loop bk target_count dates symbols multi_init))
    <= len symbols * len dates.
Proof.
  destruct (multi_day_loop_spec bk target_count dates symbols multi_init)
    as [started [rest [Hsplit [Hlog _]]]].
  rewrite Hlog. cbn [multi_init fetch_log app]. split.
  - apply Forall_forall. intros call Hin.
    apply in_flat_map in Hin as [s [Hs Hin]].
    unfold day_calls in Hin. apply in_map_iff in Hin as [d [<- Hd]].
    cbn. split; [|assumption]. rewrite Hsplit. apply in_or_app. now left.
  - rewrite Hsplit, len_app.
    rewrite day_calls_len. pose proof (len_nonneg rest). pose proof (len_nonneg dates).
    nia.
Qed.

End MultiDayInvariants.

(** X16: in multi-day mode each symbol is recorded once, however often it
    occurs in the list, and its series is the concatenation, in date order,
    of the frames the archive returned for it over the range. *)
Theorem multi_day_recorded_series {V : Type} (ex : Exchange) (bk : Backends V)
    (symbols : option (list string)) (start_date end_date : option string)
    (api_key : option string) (target_count : Z) :
  NoDup (map fst (all_symbol_data
                    (multi_day_fetch ex bk symbols start_date end_date api_key
                                     target_count))) /\
  forall c,
    In c (all_symbol_data (multi_day_fetch ex bk symbols start_date end_date
                                           api_key target_count)) ->
    snd c = List.concat
              (day_frames bk (multi_day_dates bk start_date end_date) (fst c)).
Proof.
  unfold multi_day_fetch.
  assert (H : recorded_ok bk (multi_day_dates bk start_date end_date)
                          multi_init)
    by (repeat split; [constructor | reflexivity | intros c []]).
  apply (@multi_day_loop_recorded_ok V bk target_count
           (multi_day_dates bk start_date end_date)
           (symbols_or_top ex symbols api_key target_count)) in H.
  destruct H as [Hnd [_ Hval]]. split; assumption.
Qed.

(** X17: multi-day mode never counts more than [max target_count 0]
    successes, and records at most as many series as it counts. *)
Theorem multi_day_count_bounded {V : Type} (ex : Exchange) (bk : Backends V)
    (symbols : option (list string)) (start_date end_date : option string)
    (api_key : option string) (target_count : Z) :
  len (all_symbol_data (multi_day_fetch ex bk symbols start_date end_date
                                        api_key target_count))
    <= successful_count (multi_day_fetch ex bk symbols start_date end_date
                                         api_key target_count) /\
  successful_count (multi_day_fetch ex bk symbols start_date end_date api_key
                                    target_count)
    <= Z.max 0 target_count.
Proof.
  unfold multi_day_fetch. split; [|apply multi_day_loop_count].
  assert (H : recorded_ok bk (multi_day_dates bk start_date end_date)
                          multi_init)
    by (repeat split; [constructor | reflexivity | intros c []]).
  apply (@multi_day_loop_recorded_ok V bk target_count
           (multi_day_dates bk start_date end_date)
           (symbols_or_top ex symbols api_key target_count)) in H.
  destruct H as [_ [Hlen _]]. exact Hlen.
Qed.

(** X18: every archive call of multi-day mode is for a symbol of the list and
    a date of the range, and there are at most as many calls as symbols times
    dates. *)
Theorem multi_day_calls_bounded {V : Type} (ex : Exchange) (bk : Backends V)
    (symbols : option (list string)) (start_date end_date : option string)
    (api_key : option string) (target_count : Z) :
  Forall (fun call =>
            In (fetch_symbol call)
               (symbols_or_top ex symbols api_key target_count) /\
            In (fetch_date call) (multi_day_dates bk start_date end_date))
         (fetch_log (multi_day_fetch ex bk symbols start_date end_date api_key
                                     target_count)) /\
  len (fetch_log (multi_day_fetch ex bk symbols start_date end_date api_key
                                  target_count))
    <= len (symbols_or_top ex symbols api_key target_count) *
       len (multi_day_dates bk start_date end_date).
Proof. unfold multi_day_fetch. apply multi_day_loop_calls. Qed.

Lemma no_names_no_entries {A B : Type} (d : list (A * B)) :
  (forall k, ~ In k (map fst d)) -> d = [].
Proof.
  destruct d as [|[k v] d]; [reflexivity|]. intros H.
  exfalso. apply (H k). now left.
Qed.

(** X19: with an empty symbol list, an empty date range or a target count
    of zero or less, multi-day mode issues no archive call and raises the
    no-data error. *)
Theorem multi_day_nothing_to_fetch {V : Type} (ex : Exchange) (bk : Backends V)
    (symbols : option (list string)) (start_date end_date : option string)
    (api_key : option string) (target_count : Z) :
  symbols_or_top ex symbols api_key target_count = [] \/
  multi_day_dates bk start_date end_date = [] \/
  target_count <= 0 ->
  fetch_log (multi_day_fetch ex bk symbols start_date end_date api_key
                             target_count) = [] /\
  get_crypto_data_multi_day ex bk symbols start_date end_date api_key
                            target_count
  = Raise (ValueError "No data was successfully fetched").
Proof.
  intros Hedge.
  destruct (multi_day_loop_spec bk target_count
              (multi_day_dates bk start_date end_date)
              (symbols_or_top ex symbols api_key target_count) multi_init)
    as [started [rest [Hsplit [Hlog [_ [Hkeys [_ Hrun]]]]]]].
  cbn [multi_init fetch_log successful_count all_symbol_data map app] in *.
  fold (multi_day_fetch ex bk symbols start_date end_date api_key target_count)
    in Hlog, Hkeys.
  assert (Hquiet : flat_map (day_calls (multi_day_dates bk start_date end_date))
                            started = [] /\
                   forall k, In k started ->
                             has_data bk (multi_day_dates bk start_date end_date) k
                             = false).
  { destruct Hedge as [Hnil | [Hnil | Hneg]].
    - rewrite Hnil in Hsplit. symmetry in Hsplit.
      apply app_eq_nil in Hsplit as [-> _]. split; [reflexivity | intros k []].
    - rewrite Hnil. split; [|reflexivity].
      clear. induction started as [|s l IH]; [reflexivity | exact IH].
    - destruct started as [|s post]; [split; [reflexivity | intros k []]|].
      specialize (Hrun [] s post eq_refl). unfold successes, len in Hrun.
      cbn in Hrun. lia. }
  destruct Hquiet as [Hcalls Hfail]. split; [now rewrite Hlog|].
  apply multi_day_no_data_iff, no_names_no_entries.
  intros k Hk. apply Hkeys in Hk as [[] | [Hin Hdata]].
  rewrite (Hfail k Hin) in Hdata. discriminate.
Qed.

Lemma multi_day_nothing_to_fetch_witness :
  fetch_log (multi_day_fetch ex_offline bk_disjoint_days
               (Some ["BTCUSDT"; "ETHUSDT"]) (Some "2024-01-01")
               (Some "2024-01-02") None 0) = [] /\
  get_crypto_data_multi_day ex_offline bk_disjoint_days
    (Some ["BTCUSDT"; "ETHUSDT"]) (Some "2024-01-01") (Some "2024-01-02") None 0
  = Raise (ValueError "No data was successfully fetched").
Proof.
  apply multi_day_nothing_to_fetch. right. right. lia.
Defined.

(** X20: when all collected series have the same strictly increasing
    timestamps (in particular when there is one series) and no close is NaN,
    the merged dataset's index is exactly those timestamps, in order: no row
    is dropped. *)
Theorem merge_keeps_common_index {V : Type} (c : string * Frame V)
    (frames : list (string * Frame V)) :
  increasing (frame_index (snd c)) = true ->
  (forall c', In c' frames -> frame_index (snd c') = frame_index (snd c)) ->
  (forall c', In c' (c :: frames) ->
              Forall (fun row => snd row <> None) (snd c')) ->
  exists df,
    post_fetch_merge (c :: frames) = Ok df /\
    index df = frame_index (snd c).
Proof.
  intros Hinc Hsame Hfull.
  assert (Hidx : forall c', In c' (c :: frames) ->
                            frame_index (snd c') = frame_index (snd c))
    by (intros c' [<- | Hc']; [reflexivity | now apply Hsame]).
  assert (Hdup : forall c', In c' (c :: frames) ->
                            has_duplicates (frame_index (snd c')) = false)
    by (intros c' Hc'; rewrite (Hidx c' Hc');
        now apply increasing_no_duplicates).
  eexists. split; [now apply merge_unique|].
  unfold index. cbn [rows]. rewrite merged_index. cbn [map].
  rewrite union_indexes_same.
  - apply filter_all. intros t Ht. apply in_all_spec.
    + intros c' Hc'. now apply has_duplicates_NoDup, Hdup.
    + intros c' Hc'. rewrite <- (Hidx c' Hc') in Ht.
      apply in_map_iff in Ht as [[t' cell] [Heq Hin]]. cbn in Heq. subst t'.
      specialize (Hfull c' Hc'). rewrite Forall_forall in Hfull.
      specialize (Hfull _ Hin). cbn in Hfull.
      destruct cell as [v|]; [now exists v | congruence].
  - intros i Hi. apply in_map_iff in Hi as [c' [<- Hc']]. now apply Hsame.
Qed.

Lemma merge_keeps_common_index_witness :
  exists df,
    post_fetch_merge
      [("BTCUSDT", [(jan1_00, Some 4200000); (jan1_01, Some 4210000)]);
       ("ETHUSDT", [(jan1_00, Some 230000); (jan1_01, Some 231000)])] = Ok df /\
    index df = frame_index [(jan1_00, Some 4200000); (jan1_01, Some 4210000)].
Proof.
  apply (@merge_keeps_common_index Z
           ("BTCUSDT", [(jan1_00, Some 4200000); (jan1_01, Some 4210000)])
           [("ETHUSDT", [(jan1_00, Some 230000); (jan1_01, Some 231000)])]).
  - reflexivity.
  - intros c' [<- | []]. reflexivity.
  - intros c' [<- | [<- | []]]; repeat constructor; discriminate.
Defined.

(** X21: the selector returns fewer than [target_count] symbols only when it
    has used every candidate: the length of its result is the smaller of
    [max target_count 0] and the number of candidates. *)
Theorem selector_length_exact (ex : Exchange) (api_key : option string)
    (target_count max_fetch : Z) :
  len (get_top10_symbols ex api_key target_count max_fetch) =
  Z.min (Z.max 0 target_count)
        (len (ranked_candidates ex api_key max_fetch ++
              fallback_candidates (get_all_binance_symbols ex))).
Proof.
  rewrite get_top10_symbols_firstn. unfold len. rewrite length_firstn. lia.
Qed.
